(** * FiftyOne: samples, dynamic schemas, sample parsers and labeled ingestion

    A shallow embedding of
      - [fiftyone/core/sample.py]        (class [ODMSample]),
      - [fiftyone/utils/data/parsers.py] (the sample parsers and the two
        ingestion entry points),
    followed by the properties that the specification states about them.

    Python values are embedded as the inductive type [Py.pyval]; exceptions
    are results [Raise e]; code that mutates an object threads that object
    explicitly and returns it together with the result, also when it raises. *)

From Stdlib Require Import ZArith String List Bool Lia.
From Stdlib Require Import Floats.PrimFloat Numbers.Cyclic.Int63.Uint63.
From stdpp Require Import gmap strings list pretty.

(* A decimal float literal denotes the nearest binary64 value, as it does in
   Python. *)
Set Warnings "-register-all,-inexact-float".
Open Scope string_scope.
Open Scope Z_scope.

(** ** Python values, exceptions and the builtins the code relies on *)

Module Py.

(** Embedded-document classes of [fiftyone.core.labels] and
    [fiftyone.core.metadata] that the parsers build or mention. *)
Inductive doc_type :=
| Label
| Classification
| Detection
| Detections
| ImageLabels
| Attribute
| CategoricalAttribute
| BooleanAttribute
| NumericAttribute
| Metadata
| ImageMetadata.

Definition doc_type_eqb (a b : doc_type) : bool :=
  match a, b with
  | Label, Label | Classification, Classification | Detection, Detection
  | Detections, Detections | ImageLabels, ImageLabels | Attribute, Attribute
  | CategoricalAttribute, CategoricalAttribute
  | BooleanAttribute, BooleanAttribute | NumericAttribute, NumericAttribute
  | Metadata, Metadata | ImageMetadata, ImageMetadata => true
  | _, _ => false
  end.

(** The values that flow through the parsers and the samples.  A [dict] keeps
    its insertion order and, in this program, always has string keys (JSON
    objects, field-name tables).  [VArray] is a numpy array, of which only the
    shape is inspected.  [VDoc] is an instance of an embedded document,
    [VSample] a sample of a dataset seen through its field values, [VOther]
    any other object. *)
Inductive pyval :=
| VNone
| VBool (b : bool)
| VInt (z : Z)
| VFloat (f : float)
| VStr (s : string)
| VList (l : list pyval)
| VTuple (l : list pyval)
| VDict (d : list (string * pyval))
| VArray (shape : list Z) (data : list Z)
| VDoc (cls : doc_type) (fields : list (string * pyval))
| VSample (fields : list (string * pyval))
| VOther (tag : string).

(** The text of the [ValueError]s raised by the code. *)
Inductive message :=
| NoCurrentSample        (* "No current sample. You must call `with_sample()` ..." *)
| CannotExtractImagePath (* "Cannot extract image path from samples that contain images" *)
| NoImagePaths           (* "This '%s' does not provide image paths" *)
| NoImageMetadata        (* "This '%s' does not provide image metadata" *)
| MustHaveImagePath      (* "Sample parser must have `has_image_path == True` ..." *)
| MustBeSubclass         (* "`sample_parser` must be a subclass of %s; found %s" *)
| InvalidFieldName       (* "Invalid field name: '%s'. Field name cannot start with '_'" *)
| ReservedWord           (* "Cannot set reserve word '%s'" *)
| NoSuchField            (* "Sample does not have field '%s'. Use `create=True` ..." *)
| FieldExists            (* "Field '%s' already exists" *)
| InvalidFieldType       (* "Invalid field type '%s' is not a subclass of '%s'" *)
| SchemaNotSubset        (* a sample's schema is not a subset of the dataset schema *)
| UnpackMismatch.        (* "not enough values to unpack" / "too many values to unpack" *)

Inductive exn :=
| ValueError (m : message)
| TypeError
| KeyError
| IndexError
| AttributeError
| ZeroDivisionError
| AssertionError
| ValidationError
| NotImplementedError
| External (who : string).

Inductive result (A : Type) :=
| Ok (a : A)
| Raise (e : exn).
Arguments Ok {A} a.
Arguments Raise {A} e.

#[export] Instance result_ret : MRet result := fun A a => Ok a.
#[export] Instance result_bind : MBind result := fun A B k r =>
  match r with
  | Ok a => k a
  | Raise e => Raise e
  end.

(** [try: r except: d]: a bare [except] catches every exception. *)
Definition try_except {A} (r : result A) (d : A) : A :=
  match r with
  | Ok a => a
  | Raise _ => d
  end.

(** Computations on a mutable object of type [S]: the object is returned in
    its state at the time of the return or of the [raise]. *)
Definition M (S A : Type) : Type := S -> result A * S.

Definition ret {S A} (a : A) : M S A := fun s => (Ok a, s).
Definition raise {S A} (e : exn) : M S A := fun s => (Raise e, s).
Definition lift {S A} (r : result A) : M S A := fun s => (r, s).
Definition bind {S A B} (m : M S A) (k : A -> M S B) : M S B := fun s =>
  match m s with
  | (Ok a, s') => k a s'
  | (Raise e, s') => (Raise e, s')
  end.

(** The parts of the Python runtime and of numpy that are not modelled in
    detail. *)
Class Runtime := {
  (** [str(v)] for values other than [None], booleans, integers, strings *)
  str_other : pyval -> string;
  (** [a / b] on integers of which one exceeds 2^53 in magnitude *)
  long_true_divide : Z -> Z -> result float;
  (** [float(z)] for an integer that exceeds 2^53 in magnitude *)
  long_as_double : Z -> result float;
  (** [a[key]] and [iter(a)] for a numpy array [a] *)
  ndarray_getitem : list Z -> list Z -> pyval -> result pyval;
  ndarray_iter : list Z -> list Z -> result (list pyval);
}.

(** *** Type tests *)

(** [etau.is_str(v)], i.e. [isinstance(v, six.string_types)] *)
Definition is_str (v : pyval) : bool :=
  match v with VStr _ => true | _ => false end.

(** [isinstance(v, bool)] *)
Definition is_bool (v : pyval) : bool :=
  match v with VBool _ => true | _ => false end.

(** [isinstance(v, six.integer_types)]: [bool] is a subclass of [int] *)
Definition is_int (v : pyval) : bool :=
  match v with VBool _ | VInt _ => true | _ => false end.

(** [etau.is_numeric(v)], i.e. [isinstance(v, numbers.Number)] *)
Definition is_numeric (v : pyval) : bool :=
  match v with VBool _ | VInt _ | VFloat _ => true | _ => false end.

Definition is_list (v : pyval) : bool :=
  match v with VList _ => true | _ => false end.

Definition is_tuple (v : pyval) : bool :=
  match v with VTuple _ => true | _ => false end.

Definition is_dict (v : pyval) : bool :=
  match v with VDict _ => true | _ => false end.

(** [isinstance(v, EmbeddedDocument)] *)
Definition is_embedded (v : pyval) : bool :=
  match v with VDoc _ _ => true | _ => false end.

(** [v is None] *)
Definition is_none (v : pyval) : bool :=
  match v with VNone => true | _ => false end.

(** *** Subscripts, attributes, iteration *)

Fixpoint dict_lookup (k : string) (d : list (string * pyval)) : option pyval :=
  match d with
  | [] => None
  | (k', v) :: d' => if String.eqb k k' then Some v else dict_lookup k d'
  end.

(** [d[k] = v] on a dict: an existing key keeps its position. *)
Fixpoint dict_set (k : string) (v : pyval) (d : list (string * pyval))
  : list (string * pyval) :=
  match d with
  | [] => [(k, v)]
  | (k', v') :: d' =>
      if String.eqb k k' then (k, v) :: d' else (k', v') :: dict_set k v d'
  end.

Fixpoint hashable (v : pyval) : bool :=
  match v with
  | VNone | VBool _ | VInt _ | VFloat _ | VStr _ | VOther _ => true
  | VTuple l => forallb hashable l
  | VList _ | VDict _ | VArray _ _ | VDoc _ _ | VSample _ => false
  end.

(** The integer behind an index: [True] and [False] index as 1 and 0. *)
Definition as_index (k : pyval) : option Z :=
  match k with
  | VInt i => Some i
  | VBool b => Some (if b then 1 else 0)
  | _ => None
  end.

(** [l[i]] on a sequence: a negative index counts from the end. *)
Definition seq_index {A} (l : list A) (i : Z) : result A :=
  let n := Z.of_nat (length l) in
  let j := if i <? 0 then i + n else i in
  if (0 <=? j) && (j <? n) then
    match l !! Z.to_nat j with
    | Some x => Ok x
    | None => Raise IndexError
    end
  else Raise IndexError.

Definition chars (s : string) : list pyval :=
  map (fun c => VStr (String c EmptyString)) (list_ascii_of_string s).

Section WithRuntime.
Context {runtime : Runtime}.

(** [c[k]] *)
Definition getitem (c k : pyval) : result pyval :=
  match c with
  | VList l | VTuple l =>
      match as_index k with
      | Some i => seq_index l i
      | None => Raise TypeError
      end
  | VStr s =>
      match as_index k with
      | Some i => seq_index (chars s) i
      | None => Raise TypeError
      end
  | VDict d =>
      match k with
      | VStr name =>
          match dict_lookup name d with
          | Some v => Ok v
          | None => Raise KeyError
          end
      | _ => if hashable k then Raise KeyError else Raise TypeError
      end
  | VDoc _ fields | VSample fields =>
      match k with
      | VStr name =>
          match dict_lookup name fields with
          | Some v => Ok v
          | None => Raise KeyError
          end
      | _ => Raise KeyError
      end
  | VArray shape data => ndarray_getitem shape data k
  | VNone | VBool _ | VInt _ | VFloat _ | VOther _ => Raise TypeError
  end.

(** [for x in c] / unpacking: the elements that iterating over [c] yields *)
Definition iter (c : pyval) : result (list pyval) :=
  match c with
  | VList l | VTuple l => Ok l
  | VStr s => Ok (chars s)
  | VDict d => Ok (map (fun kv => VStr (fst kv)) d)
  | VArray shape data => ndarray_iter shape data
  | _ => Raise TypeError
  end.

(** [a, b = c] *)
Definition unpack2 (c : pyval) : result (pyval * pyval) :=
  l ← iter c;
  match l with
  | [a; b] => Ok (a, b)
  | _ => Raise (ValueError UnpackMismatch)
  end.

(** [a, b, c, d = v] *)
Definition unpack4 (v : pyval) : result (pyval * pyval * pyval * pyval) :=
  l ← iter v;
  match l with
  | [a; b; c; d] => Ok (a, b, c, d)
  | _ => Raise (ValueError UnpackMismatch)
  end.

(** [o.name] for the data attributes that the code reads *)
Definition getattr (o : pyval) (name : string) : result pyval :=
  match o with
  | VDoc _ fields | VSample fields =>
      match dict_lookup name fields with
      | Some v => Ok v
      | None => Raise AttributeError
      end
  | VArray shape _ =>
      if String.eqb name "shape" then Ok (VTuple (map VInt shape))
      else Raise AttributeError
  | _ => Raise AttributeError
  end.

(** [o.get(k, default)] *)
Definition dict_get (o : pyval) (k : string) (default : pyval) : result pyval :=
  match o with
  | VDict d =>
      match dict_lookup k d with
      | Some v => Ok v
      | None => Ok default
      end
  | _ => Raise AttributeError
  end.

(** [o.items()] *)
Definition dict_items (o : pyval) : result (list (string * pyval)) :=
  match o with
  | VDict d => Ok d
  | _ => Raise AttributeError
  end.

(** [s[:2]] on a tuple *)
Definition slice2 (s : pyval) : result pyval :=
  match s with
  | VTuple l => Ok (VTuple (firstn 2 l))
  | VList l => Ok (VList (firstn 2 l))
  | VStr t => Ok (VStr (String.substring 0 2 t))
  | _ => Raise TypeError
  end.

(** *** Conversions and arithmetic *)

(** [str(v)] *)
Definition str (v : pyval) : string :=
  match v with
  | VNone => "None"
  | VBool true => "True"
  | VBool false => "False"
  | VInt z => pretty z
  | VStr s => s
  | _ => str_other v
  end.

Definition exact_bound : Z := 2 ^ 53.

(** Integers up to 2^53 in magnitude are floats exactly. *)
Definition float_of_small (z : Z) : float :=
  if z <? 0 then PrimFloat.opp (PrimFloat.of_uint63 (Uint63.of_Z (- z)))
  else PrimFloat.of_uint63 (Uint63.of_Z z).

Definition is_small (z : Z) : bool := Z.abs z <=? exact_bound.

(** [float(z)] *)
Definition int_to_float (z : Z) : result float :=
  if is_small z then Ok (float_of_small z) else long_as_double z.

Definition int_of_bool (b : bool) : Z := if b then 1 else 0.

(** The integer value of an [int] or a [bool] *)
Definition as_int (v : pyval) : Z :=
  match v with
  | VInt z => z
  | VBool b => int_of_bool b
  | _ => 0
  end.

(** [a / b] on two integers: the correctly rounded quotient *)
Definition int_true_divide (a b : Z) : result pyval :=
  if b =? 0 then Raise ZeroDivisionError
  else if is_small a && is_small b then
    Ok (VFloat (PrimFloat.div (float_of_small a) (float_of_small b)))
  else f ← long_true_divide a b; Ok (VFloat f).

(** [a / b] on two floats *)
Definition float_true_divide (a b : float) : result pyval :=
  if PrimFloat.eqb b PrimFloat.zero then Raise ZeroDivisionError
  else Ok (VFloat (PrimFloat.div a b)).

(** [a / b], also [a /= b] on these immutable values *)
Definition truediv (a b : pyval) : result pyval :=
  match a, b with
  | (VInt _ | VBool _), (VInt _ | VBool _) =>
      int_true_divide (as_int a) (as_int b)
  | VFloat x, (VInt _ | VBool _) =>
      y ← int_to_float (as_int b); float_true_divide x y
  | (VInt _ | VBool _), VFloat y =>
      x ← int_to_float (as_int a); float_true_divide x y
  | VFloat x, VFloat y => float_true_divide x y
  | _, _ => Raise TypeError
  end.

End WithRuntime.

End Py.

Notation "x <~ m ;; k" := (Py.bind m (fun x => k))
  (at level 100, m at next level, right associativity, only parsing).
Notation "m ;;; k" := (Py.bind m (fun _ => k))
  (at level 100, right associativity, only parsing).

(** ** [fiftyone/core/sample.py]: samples bound to a dynamic schema *)

Module ODM.
Import Py.

(** The mongoengine field classes that the code names. *)
Inductive field_cls :=
| BooleanField
| IntField
| StringField
| ListField
| DictField
| EmbeddedDocumentField.

(** A class handed to [add_field] as [field_type]: a subclass of [BaseField],
    a document class, or some other class. *)
Inductive pyclass :=
| FieldClass (t : field_cls)
| DocClass (d : doc_type)
| OtherClass (name : string).

(** [issubclass(c, BaseField)] *)
Definition is_field_class (c : pyclass) : option field_cls :=
  match c with
  | FieldClass t => Some t
  | _ => None
  end.

(** A field instance, as [field_type( **kwargs )] builds it in [add_field]. *)
Record Field := {
  ftype : field_cls;
  db_field : string;
  document_type : option doc_type;
  null : bool;
  field : option field_cls;
  name : string;
}.

(** The document class of a dataset: its fields in a dict and in declaration
    order, and the names of its other plain attributes (methods and the
    like; the properties of [ODMSample] are kept apart, see [is_property]). *)
Record doc_class := {
  _fields : gmap string Field;
  _fields_ordered : list string;
  attrs : gset string;
}.

(** A document instance: the field values, the attributes of the instance
    that are no fields, whether it is in the database, and how many times
    [save()] ran. *)
Record instance := {
  _data : gmap string pyval;
  __dict__ : gmap string pyval;
  _in_db : bool;
  saves : nat;
}.

(** A sample together with the class it is an instance of, and the number of
    warnings issued on its behalf. *)
Record Sample := {
  klass : doc_class;
  self : instance;
  warnings : nat;
}.

(** mongoengine's [field.validate(value)]: [true] when it returns, [false]
    when it raises [ValidationError]. *)
Class Mongo := {
  validate : Field -> pyval -> bool;
}.

Definition in_fields (c : doc_class) (n : string) : bool :=
  bool_decide (is_Some (_fields c !! n)).

(** The path separator, ["/"]. *)
Definition sep : Ascii.ascii := Ascii.ascii_of_nat 47.

Definition has_slash (p : string) : bool :=
  existsb (Ascii.eqb sep) (list_ascii_of_string p).

(** [os.path.basename(p)]: what follows the last slash. *)
Fixpoint basename (p : string) : string :=
  match p with
  | EmptyString => EmptyString
  | String c rest =>
      if has_slash rest then basename rest
      else if Ascii.eqb c sep then rest
      else p
  end.

(** [ODMSample.filename] *)
Definition filename (s : Sample) : result pyval :=
  match default VNone (_data (self s) !! "filepath") with
  | VStr p => Ok (VStr (basename p))
  | _ => Raise TypeError
  end.

(** The properties that [ODMSample] defines: [in_dataset], [dataset_name]
    and [filename].  The set [attrs] of a class holds its plain attributes
    (methods and the like) and none of these names. *)
Definition is_property (n : string) : bool :=
  bool_decide (n ∈ ["in_dataset"; "dataset_name"; "filename"]).

(** The value of a property: [in_dataset] and [dataset_name] raise
    [NotImplementedError]. *)
Definition get_property (s : Sample) (n : string) : result pyval :=
  if String.eqb n "filename" then filename s else Raise NotImplementedError.

(** [hasattr(cls, name)]: on the class a property is found without being
    evaluated. *)
Definition hasattr_cls (c : doc_class) (n : string) : bool :=
  in_fields c n || bool_decide (n ∈ attrs c) || is_property n.

(** [getattr(self, name)]: a field or a property of the class comes first (a
    field that [add_field] set on the class hides a property of that name),
    then the attributes of the instance, then the plain attributes of the
    class, which are seen as opaque objects. *)
Definition getattribute (s : Sample) (n : string) : result pyval :=
  if in_fields (klass s) n then Ok (default VNone (_data (self s) !! n))
  else if is_property n then get_property s n
  else match __dict__ (self s) !! n with
       | Some v => Ok v
       | None =>
           if bool_decide (n ∈ attrs (klass s)) then Ok (VOther n)
           else Raise AttributeError
       end.

(** [hasattr(self, name)]: it answers [False] for an [AttributeError] only;
    any other exception of a property comes out of it. *)
Definition hasattr (s : Sample) (n : string) : result bool :=
  match getattribute s n with
  | Ok _ => Ok true
  | Raise AttributeError => Ok false
  | Raise e => Raise e
  end.

Definition with_klass (c : doc_class) (s : Sample) : Sample :=
  {| klass := c; self := self s; warnings := warnings s |}.

Definition with_self (i : instance) (s : Sample) : Sample :=
  {| klass := klass s; self := i; warnings := warnings s |}.

(** A class method run on the sample's class. *)
Definition on_class {A} (m : M doc_class A) : M Sample A := fun s =>
  let '(r, c) := m (klass s) in (r, with_klass c s).

(** [add_field(cls, field_name, field_type, embedded_doc_type, subfield)] *)
Definition add_field (field_name : string) (field_type : pyclass)
    (embedded_doc_type : option doc_type) (subfield : option field_cls)
  : M doc_class unit := fun cls =>
  if in_fields cls field_name then (Raise (ValueError FieldExists), cls)
  else
    match is_field_class field_type with
    | None => (Raise (ValueError InvalidFieldType), cls)
    | Some t =>
        let fld :=
          match t with
          | EmbeddedDocumentField =>
              {| ftype := t; db_field := field_name;
                 document_type := embedded_doc_type; null := true;
                 field := None; name := field_name |}
          | ListField | DictField =>
              {| ftype := t; db_field := field_name;
                 document_type := None; null := false;
                 field := subfield; name := field_name |}
          | _ =>
              {| ftype := t; db_field := field_name;
                 document_type := None; null := false;
                 field := None; name := field_name |}
          end in
        (Ok (),
         {| _fields := <[field_name := fld]> (_fields cls);
            _fields_ordered := _fields_ordered cls ++ [field_name];
            attrs := attrs cls |})
    end.

(** [type(value)] of an embedded document *)
Definition type_of_doc (v : pyval) : option doc_type :=
  match v with
  | VDoc c _ => Some c
  | _ => None
  end.

(** [_add_implied_field(cls, field_name, value)] *)
Definition _add_implied_field (field_name : string) (value : pyval)
  : M doc_class unit := fun cls =>
  if in_fields cls field_name then (Raise AssertionError, cls)
  else if is_embedded value then
    add_field field_name (FieldClass EmbeddedDocumentField)
      (type_of_doc value) None cls
  else if is_bool value then
    add_field field_name (FieldClass BooleanField) None None cls
  else if is_int value then
    add_field field_name (FieldClass IntField) None None cls
  else if is_str value then
    add_field field_name (FieldClass StringField) None None cls
  else if is_list value || is_tuple value then
    add_field field_name (FieldClass ListField) None None cls
  else if is_dict value then
    add_field field_name (FieldClass DictField) None None cls
  else (Raise TypeError, cls).

(** What mongoengine's field descriptor stores on [obj.name = value]: [None]
    is replaced by the field's default unless the field is nullable; lists
    and dicts default to an empty one. *)
Definition stored (fld : Field) (value : pyval) : pyval :=
  if is_none value then
    if null fld then VNone
    else match ftype fld with
         | ListField => VList []
         | DictField => VDict []
         | _ => VNone
         end
  else value.

(** [hasattr(self, name) and name not in self._fields] *)
Definition has_non_field (s : Sample) (n : string) : result bool :=
  match hasattr s n with
  | Ok present => Ok (present && negb (in_fields (klass s) n))
  | Raise e => Raise e
  end.

(** mongoengine's [Document.__setattr__]: a field name goes through the
    field descriptor into [_data]; a property has no setter and raises
    [AttributeError]; any other name becomes an attribute of the instance. *)
Definition super_setattr (n : string) (value : pyval) : M Sample unit := fun s =>
  let i := self s in
  match _fields (klass s) !! n with
  | Some fld =>
      (Ok (), with_self {| _data := <[n := stored fld value]> (_data i);
                           __dict__ := __dict__ i;
                           _in_db := _in_db i; saves := saves i |} s)
  | None =>
      if is_property n then (Raise AttributeError, s)
      else
        (Ok (), with_self {| _data := _data i;
                             __dict__ := <[n := value]> (__dict__ i);
                             _in_db := _in_db i; saves := saves i |} s)
  end.

(** [self.save()] *)
Definition save : M Sample unit := fun s =>
  let i := self s in
  (Ok (), with_self {| _data := _data i; __dict__ := __dict__ i;
                       _in_db := _in_db i; saves := S (saves i) |} s).

(** [warnings.warn(...)] *)
Definition warn : M Sample unit := fun s =>
  (Ok (), {| klass := klass s; self := self s; warnings := S (warnings s) |}).

Section WithMongo.
Context {mongo : Mongo}.

(** [ODMSample.__setattr__(self, name, value)] *)
Definition __setattr__ (n : string) (value : pyval) : M Sample unit := fun s =>
  match (if String.prefix "_" n then Ok true else has_non_field s n) with
  | Raise e => (Raise e, s)
  | Ok true => super_setattr n value s
  | Ok false =>
      if hasattr_cls (klass s) n then
        match _fields (klass s) !! n with
        | Some fld =>
            if negb (is_none value) && negb (validate fld value) then
              (Raise ValidationError, s)
            else
              (super_setattr n value ;;;
               if negb (bool_decide (n ∈ ["_cls"; "id"])) && _in_db (self s)
               then save else ret ()) s
        | None =>
            (* [getattr(cls, name)] is no field and has no [validate] *)
            (Raise AttributeError, s)
        end
      else
        (warn ;;; super_setattr n value) s
  end.

(** [ODMSample.set_field(self, field_name, value, create)] *)
Definition set_field (field_name : string) (value : pyval) (create : bool)
  : M Sample unit := fun s =>
  if String.prefix "_" field_name then (Raise (ValueError InvalidFieldName), s)
  else
    match has_non_field s field_name with
    | Raise e => (Raise e, s)
    | Ok true => (Raise (ValueError ReservedWord), s)
    | Ok false =>
        ((if negb (in_fields (klass s) field_name) then
            if create then on_class (_add_implied_field field_name value)
            else raise (ValueError NoSuchField)
          else ret ()) ;;;
         __setattr__ field_name value) s
    end.

(** [ODMSample.__setitem__(self, key, value)] *)
Definition __setitem__ (key : string) (value : pyval) : M Sample unit :=
  set_field key value true.

End WithMongo.

(** [ODMSample.__getitem__(self, key)] for a string key.  A name that the
    sample does not have goes to mongoengine's [__getitem__], which raises
    [KeyError] for it. *)
Definition __getitem__ (s : Sample) (key : string) : result pyval :=
  match hasattr s key with
  | Ok true => getattribute s key
  | Ok false => Raise KeyError
  | Raise e => Raise e
  end.

(** mongoengine's validation of a value against a field, by kind. *)
Definition kind_validate (fld : Field) (value : pyval) : bool :=
  match ftype fld with
  | BooleanField => is_bool value
  | IntField => is_int value
  | StringField => is_str value
  | ListField => is_list value || is_tuple value
  | DictField => is_dict value
  | EmbeddedDocumentField =>
      match value, document_type fld with
      | VDoc c _, Some t => doc_type_eqb c t
      | _, _ => false
      end
  end.

Definition kind_mongo : Mongo := {| validate := kind_validate |}.

End ODM.

(** ** [fiftyone.core.labels]: the label documents that the parsers build *)

Module fol.
Import Py.

Definition Classification (label : pyval) : pyval :=
  VDoc Py.Classification [("label", label)].

Definition Detection (label bounding_box confidence attributes : pyval) : pyval :=
  VDoc Py.Detection
    [("label", label); ("bounding_box", bounding_box);
     ("confidence", confidence); ("attributes", attributes)].

Definition Detections (detections : list pyval) : pyval :=
  VDoc Py.Detections [("detections", VList detections)].

Definition ImageLabels (labels : pyval) : pyval :=
  VDoc Py.ImageLabels [("labels", labels)].

Definition CategoricalAttribute (value : pyval) : pyval :=
  VDoc Py.CategoricalAttribute [("value", value)].

Definition BooleanAttribute (value : pyval) : pyval :=
  VDoc Py.BooleanAttribute [("value", value)].

Definition NumericAttribute (value : pyval) : pyval :=
  VDoc Py.NumericAttribute [("value", value)].

Definition Attribute (value : pyval) : pyval :=
  VDoc Py.Attribute [("value", value)].

End fol.

(** ** [fiftyone/utils/data/parsers.py]: the sample parsers *)

Module Parsers.
Import Py.

(** Constructor arguments of [ImageDetectionSampleParser]. *)
Record detection_config := {
  label_field : string;
  bounding_box_field : string;
  confidence_field : option string;
  attributes_field : option string;
  classes : pyval;
  normalized : bool;
}.

(** Constructor arguments of [ImageLabelsSampleParser]. *)
Record image_labels_config := {
  expand : bool;
  prefix : option string;
  labels_dict : option (list (string * string));
  multilabel : bool;
  skip_non_categorical : bool;
}.

(** The [label_field_or_dict] of [FiftyOneLabeledImageSampleParser]. *)
Inductive field_or_dict :=
| FieldName (label_field : string)
| FieldDict (d : list (string * string)).

(** The concrete parser classes that keep only [_current_sample] ... *)
Inductive plain_class :=
| ImageSampleParser
| FiftyOneUnlabeledImageSampleParser (compute_metadata : bool)
| FiftyOneLabeledImageSampleParser (label_field_or_dict : field_or_dict)
    (compute_metadata : bool).

(** ... and those that derive from [LabeledImageTupleSampleParser], which
    adds [_current_image_cache]. *)
Inductive tuple_class :=
| LabeledImageTupleSampleParser
| ImageClassificationSampleParser (classes : pyval)
| ImageDetectionSampleParser (cfg : detection_config)
| ImageLabelsSampleParser (cfg : image_labels_config).

(** A parser instance: its class with the constructor arguments, and its
    mutable attributes. *)
Inductive parser :=
| Plain (c : plain_class) (_current_sample : pyval)
| Tuple (c : tuple_class) (_current_sample _current_image_cache : pyval).

(** [FiftyOneImageClassificationSampleParser(classes)] and its siblings only
    fix constructor arguments. *)
Definition FiftyOneImageClassificationSampleParser (classes : pyval) : tuple_class :=
  ImageClassificationSampleParser classes.

Definition FiftyOneImageDetectionSampleParser (classes : pyval) : tuple_class :=
  ImageDetectionSampleParser
    {| label_field := "label"; bounding_box_field := "bounding_box";
       confidence_field := Some "confidence";
       attributes_field := Some "attributes";
       classes := classes; normalized := true |}.

Definition FiftyOneImageLabelsSampleParser (cfg : image_labels_config) : tuple_class :=
  ImageLabelsSampleParser cfg.

(** [__init__]: a new parser has no current sample and an empty cache. *)
Definition new_plain (c : plain_class) : parser := Plain c VNone.
Definition new_tuple (c : tuple_class) : parser := Tuple c VNone VNone.

Definition _current_sample (p : parser) : pyval :=
  match p with
  | Plain _ s => s
  | Tuple _ s _ => s
  end.

(** [SampleParser.current_sample] *)
Definition current_sample (p : parser) : result pyval :=
  if is_none (_current_sample p) then Raise (ValueError NoCurrentSample)
  else Ok (_current_sample p).

(** [clear_sample]: [SampleParser.clear_sample], extended by
    [LabeledImageTupleSampleParser.clear_sample]. *)
Definition clear_sample (p : parser) : parser :=
  match p with
  | Plain c _ => Plain c VNone
  | Tuple c _ _ => Tuple c VNone VNone
  end.

(** [SampleParser.with_sample] *)
Definition with_sample (sample : pyval) (p : parser) : parser :=
  match clear_sample p with
  | Plain c _ => Plain c sample
  | Tuple c _ cache => Tuple c sample cache
  end.

Definition has_image_path (p : parser) : bool :=
  match p with
  | Plain ImageSampleParser _ => true
  | Plain (FiftyOneUnlabeledImageSampleParser _) _ => true
  | Plain (FiftyOneLabeledImageSampleParser _ _) _ => true
  | Tuple _ _ _ => true
  end.

Definition has_image_metadata (p : parser) : bool :=
  match p with
  | Plain ImageSampleParser _ => false
  | Plain (FiftyOneUnlabeledImageSampleParser _) _ => true
  | Plain (FiftyOneLabeledImageSampleParser _ _) _ => true
  | Tuple _ _ _ => false
  end.

(** [isinstance(p, UnlabeledImageSampleParser)] *)
Definition is_unlabeled (p : parser) : bool :=
  match p with
  | Plain ImageSampleParser _
  | Plain (FiftyOneUnlabeledImageSampleParser _) _ => true
  | _ => false
  end.

(** [isinstance(p, LabeledImageSampleParser)] *)
Definition is_labeled (p : parser) : bool := negb (is_unlabeled p).

(** [label_cls]: [None] when the parser returns a dictionary of labels; the
    unlabeled parsers have no such attribute. *)
Definition label_cls (p : parser) : result (option doc_type) :=
  match p with
  | Plain (FiftyOneLabeledImageSampleParser _ _) _ => Ok (Some Label)
  | Plain _ _ => Raise AttributeError
  | Tuple LabeledImageTupleSampleParser _ _ => Ok (Some Label)
  | Tuple (ImageClassificationSampleParser _) _ _ => Ok (Some Classification)
  | Tuple (ImageDetectionSampleParser _) _ _ => Ok (Some Detections)
  | Tuple (ImageLabelsSampleParser cfg) _ _ =>
      Ok (if negb (expand cfg) then Some ImageLabels else None)
  end.

(** The image, serialization and label libraries behind the parsers. *)
Class Eta := {
  (** [eta.core.image.read(path)] *)
  etai_read : pyval -> result pyval;
  (** [numpy.asarray(obj)] *)
  np_asarray : pyval -> result pyval;
  (** [eta.core.serial.load_json(path_or_str)] *)
  etas_load_json : pyval -> result pyval;
  (** [eta.core.image.ImageLabels.from_json(s)] and [.from_dict(d)] *)
  ImageLabels_from_json : pyval -> result pyval;
  ImageLabels_from_dict : pyval -> result pyval;
  (** [fiftyone.core.labels.ImageLabels.expand(...)] *)
  ImageLabels_expand : pyval -> image_labels_config -> result pyval;
  (** [fiftyone.core.metadata.ImageMetadata.build_for(path)] *)
  ImageMetadata_build_for : pyval -> result pyval;
}.

(** [if name:] on an optional field name: [None] and the empty string are
    false. *)
Definition given (o : option string) : option string :=
  match o with
  | Some EmptyString => None
  | _ => o
  end.

Section WithLibraries.
Context {runtime : Runtime} {eta : Eta}.

(** [_parse_image(image_or_path)] of [LabeledImageTupleSampleParser], which
    is also the body of [ImageSampleParser.get_image] *)
Definition _parse_image (image_or_path : pyval) : result pyval :=
  if is_str image_or_path then etai_read image_or_path
  else np_asarray image_or_path.

(** [LabeledImageTupleSampleParser._get_image] *)
Definition _get_image (p : parser) : result pyval :=
  s ← current_sample p;
  image_or_path ← getitem s (VInt 0);
  _parse_image image_or_path.

(** [LabeledImageTupleSampleParser._current_image] *)
Definition _current_image : M parser pyval := fun p =>
  match p with
  | Tuple c s cache =>
      if is_none cache then
        match _get_image p with
        | Ok img => (Ok img, Tuple c s img)
        | Raise e => (Raise e, p)
        end
      else (Ok cache, p)
  | Plain _ _ => (Raise AttributeError, p)
  end.

(** [get_image] *)
Definition get_image : M parser pyval := fun p =>
  match p with
  | Plain ImageSampleParser _ =>
      (image_or_path ← current_sample p; _parse_image image_or_path, p)
  | Plain _ _ =>
      (s ← current_sample p; path ← getattr s "filepath"; etai_read path, p)
  | Tuple _ _ _ => _current_image p
  end.

(** [get_image_path] *)
Definition get_image_path : M parser pyval := fun p =>
  match p with
  | Plain ImageSampleParser _ =>
      (image_or_path ← current_sample p;
       if is_str image_or_path then Ok image_or_path
       else Raise (ValueError CannotExtractImagePath), p)
  | Plain _ _ =>
      (s ← current_sample p; getattr s "filepath", p)
  | Tuple _ _ _ =>
      (s ← current_sample p;
       image_or_path ← getitem s (VInt 0);
       if is_str image_or_path then Ok image_or_path
       else Raise (ValueError CannotExtractImagePath), p)
  end.

(** [get_image_metadata] *)
Definition get_image_metadata : M parser pyval := fun p =>
  match p with
  | Plain (FiftyOneUnlabeledImageSampleParser compute_metadata) _
  | Plain (FiftyOneLabeledImageSampleParser _ compute_metadata) _ =>
      (s ← current_sample p;
       metadata ← getattr s "metadata";
       if is_none metadata && compute_metadata then
         s' ← current_sample p;
         path ← getattr s' "filepath";
         ImageMetadata_build_for path
       else Ok metadata, p)
  | _ => (Raise (ValueError NoImageMetadata), p)
  end.

(** [ImageClassificationSampleParser._parse_label] *)
Definition classification_parse_label (classes target : pyval) : result pyval :=
  if is_none target then Ok VNone
  else
    let label := try_except (getitem classes target) (VStr (str target)) in
    Ok (fol.Classification label).

(** [ImageDetectionSampleParser._parse_attribute] *)
Definition _parse_attribute (value : pyval) : pyval :=
  if is_str value then fol.CategoricalAttribute value
  else if is_bool value then fol.BooleanAttribute value
  else if is_numeric value then fol.NumericAttribute value
  else fol.Attribute value.

(** [ImageDetectionSampleParser._parse_bbox] *)
Definition _parse_bbox (cfg : detection_config) (obj : pyval) : result pyval :=
  getitem obj (VStr (bounding_box_field cfg)).

(** [ImageDetectionSampleParser._parse_detection] *)
Definition _parse_detection (cfg : detection_config) (obj img : pyval)
  : result pyval :=
  label ← getitem obj (VStr (label_field cfg));
  let label := try_except (getitem (classes cfg) label) (VStr (str label)) in
  box ← _parse_bbox cfg obj;
  '(tlx, tly, w, h) ← unpack4 box;
  '(tlx, tly, w, h) ←
    (if negb (normalized cfg) then
       shape ← getattr img "shape";
       hw ← slice2 shape;
       '(height, width) ← unpack2 hw;
       tlx ← truediv tlx width;
       tly ← truediv tly height;
       w ← truediv w width;
       h ← truediv h height;
       Ok (tlx, tly, w, h)
     else Ok (tlx, tly, w, h));
  let bounding_box := VList [tlx; tly; w; h] in
  confidence ←
    match given (confidence_field cfg) with
    | Some f => dict_get obj f VNone
    | None => Ok VNone
    end;
  attributes ←
    match given (attributes_field cfg) with
    | Some f =>
        _attrs ← dict_get obj f (VDict []);
        items ← dict_items _attrs;
        Ok (VDict (map (fun kv => (fst kv, _parse_attribute (snd kv))) items))
    | None => Ok VNone
    end;
  Ok (fol.Detection label bounding_box confidence attributes).

(** [[f(x) for x in l]]: the first exception ends the comprehension. *)
Fixpoint for_each {A B} (f : A -> result B) (l : list A) : result (list B) :=
  match l with
  | [] => Ok []
  | x :: l' => y ← f x; ys ← for_each f l'; Ok (y :: ys)
  end.

(** [ImageDetectionSampleParser._parse_label] *)
Definition detection_parse_label (cfg : detection_config) (target img : pyval)
  : result pyval :=
  if is_none target then Ok VNone
  else
    target ← (if is_str target then etas_load_json target else Ok target);
    objs ← iter target;
    detections ← for_each (fun obj => _parse_detection cfg obj img) objs;
    Ok (fol.Detections detections).

(** [ImageLabelsSampleParser._parse_label] *)
Definition image_labels_parse_label (cfg : image_labels_config) (labels : pyval)
  : result pyval :=
  labels ←
    (if is_str labels then ImageLabels_from_json labels
     else if is_dict labels then ImageLabels_from_dict labels
     else Ok labels);
  let label := fol.ImageLabels labels in
  if negb (is_none label) && expand cfg then ImageLabels_expand label cfg
  else Ok label.

(** [FiftyOneLabeledImageSampleParser.get_label] on a dictionary:
    [{v: self.current_sample[k] for k, v in d.items()}] *)
Fixpoint gather (p : parser) (d : list (string * string))
    (acc : list (string * pyval)) : result (list (string * pyval)) :=
  match d with
  | [] => Ok acc
  | (k, v) :: d' =>
      s ← current_sample p;
      x ← getitem s (VStr k);
      gather p d' (dict_set v x acc)
  end.

(** [get_label] *)
Definition get_label : M parser pyval := fun p =>
  match p with
  | Plain (FiftyOneLabeledImageSampleParser (FieldDict d) _) _ =>
      (l ← gather p d []; Ok (VDict l), p)
  | Plain (FiftyOneLabeledImageSampleParser (FieldName f) _) _ =>
      (s ← current_sample p; getitem s (VStr f), p)
  | Plain _ _ => (Raise AttributeError, p)
  | Tuple LabeledImageTupleSampleParser _ _ =>
      (s ← current_sample p; getitem s (VInt 1), p)
  | Tuple (ImageClassificationSampleParser classes) _ _ =>
      (s ← current_sample p;
       target ← getitem s (VInt 1);
       classification_parse_label classes target, p)
  | Tuple (ImageDetectionSampleParser cfg) _ _ =>
      match (s ← current_sample p; getitem s (VInt 1)) with
      | Raise e => (Raise e, p)
      | Ok target =>
          (img <~ (if negb (normalized cfg) then _current_image else ret VNone) ;;
           lift (detection_parse_label cfg target img)) p
      end
  | Tuple (ImageLabelsSampleParser cfg) _ _ =>
      (s ← current_sample p;
       labels ← getitem s (VInt 1);
       image_labels_parse_label cfg labels, p)
  end.

End WithLibraries.

End Parsers.

(** ** The labeled ingestion entry point of [parsers.py] *)

Module Ingest.
Import Py ODM Parsers.

(** The fields that [ODMSample] declares in its class body. *)
Definition filepath_field : Field :=
  {| ftype := StringField; db_field := "filepath"; document_type := None;
     null := false; field := None; name := "filepath" |}.

Definition tags_field : Field :=
  {| ftype := ListField; db_field := "tags"; document_type := None;
     null := false; field := Some StringField; name := "tags" |}.

Definition metadata_field : Field :=
  {| ftype := EmbeddedDocumentField; db_field := "metadata";
     document_type := Some Metadata; null := true; field := None;
     name := "metadata" |}.

(** The methods of [ODMSample]; its properties are no plain attributes. *)
Definition odm_attrs : gset string :=
  list_to_set
    ["meta"; "get_fields"; "add_field"; "set_field"; "save"; "validate"].

(** The class of a sample that is not yet in a dataset. *)
Definition sample_class : doc_class :=
  {| _fields :=
       <["filepath" := filepath_field]>
         (<["tags" := tags_field]> (<["metadata" := metadata_field]> ∅));
     _fields_ordered := ["filepath"; "tags"; "metadata"];
     attrs := odm_attrs |}.

(** Modelled from the spec: the constructor [fos.Sample(filepath, metadata,
    tags)] of [fiftyone.core.sample], which is not in this version of the
    file.  A Sample is [{id, filepath, tags, metadata, ...dynamic fields}];
    a new one has the three declared fields and is not persisted; its id is
    assigned when the store receives it. *)
Definition new_Sample (filepath metadata tags : pyval) : Sample :=
  {| klass := sample_class;
     self :=
       {| _data :=
            <["filepath" := stored filepath_field filepath]>
              (<["tags" := stored tags_field tags]>
                 (<["metadata" := stored metadata_field metadata]> ∅));
          __dict__ := ∅; _in_db := false; saves := 0 |};
     warnings := 0 |}.

(** The sample after a method that mutates it returned; the exception of
    the method otherwise. *)
Definition updated (r : result unit * Sample) : result Sample :=
  match r with
  | (Ok _, sample) => Ok sample
  | (Raise e, _) => Raise e
  end.

Section WithMongo.
Context {mongo : Mongo}.

(** Modelled from the spec: [Sample.update_fields(label)], which is not in
    this version of [sample.py]: each entry of the mapping is written into
    the Sample under its own field name. *)
Fixpoint update_fields (fields_dict : list (string * pyval)) : M Sample unit :=
  match fields_dict with
  | [] => ret ()
  | (field_name, value) :: rest =>
      __setitem__ field_name value ;;; update_fields rest
  end.

Section WithLibraries.
Context {runtime : Runtime} {eta : Eta}.

(** [add_labeled_images.parse_sample]: the function mapped over the records,
    closed over [sample_parser], [label_field] and [tags].  It returns the
    Sample it built; the parser is the mutable object. *)
Definition parse_sample (label_field : string) (tags : pyval) (sample : pyval)
  : M parser Sample := fun p =>
  let p := with_sample sample p in
  (image_path <~ get_image_path ;;
   metadata <~ (fun p => if has_image_metadata p then get_image_metadata p
                         else (Ok VNone, p)) ;;
   label <~ get_label ;;
   let sample := new_Sample image_path metadata tags in
   match label with
   | VDict d => lift (updated (update_fields d sample))
   | VNone => ret sample
   | _ => lift (updated (__setitem__ label_field label sample))
   end) p.

End WithLibraries.
End WithMongo.

(** A dataset: its schema (the class of its samples) and the samples that
    the store holds. *)
Record dataset := {
  schema : doc_class;
  stored_samples : list instance;
}.

(** The store behind a dataset: [create_or_update(sample) -> id], which
    enforces its own constraints (unique [filepath]) on the stored samples
    and leaves the schema alone. *)
Class Store := {
  create_or_update : list instance -> instance -> result (string * list instance);
}.

(** The iterable handed to the entry point: [len(samples)] is defined for a
    list and raises for a generator. *)
Record source := {
  records : list pyval;
  has_len : bool;
}.

(** [try: num_samples = len(samples) except: num_samples = None] *)
Definition num_samples_of (samples : source) : option nat :=
  if has_len samples then Some (length (records samples)) else None.

(** Modelled from the spec: [Dataset._ensure_label_field], the [ensure_field]
    of the schema registry, which is not under [src/]: a no-op if the name
    exists with a compatible kind, and it creates the field otherwise (with
    [add_field], which rejects a duplicate name). *)
Definition compatible (fld : Field) (label_cls : doc_type) : bool :=
  match ftype fld, document_type fld with
  | EmbeddedDocumentField, Some t => doc_type_eqb t label_cls
  | _, _ => false
  end.

Definition _ensure_label_field (label_field : string) (label_cls : doc_type)
  : M dataset unit := fun ds =>
  match _fields (schema ds) !! label_field with
  | Some fld =>
      if compatible fld label_cls then (Ok (), ds)
      else (Raise (ValueError FieldExists), ds)
  | None =>
      let '(r, c) := add_field label_field (FieldClass EmbeddedDocumentField)
                       (Some label_cls) None (schema ds) in
      (r, {| schema := c; stored_samples := stored_samples ds |})
  end.

(** The fields of [sample] that [target] lacks are appended to [target]. *)
Fixpoint merge_fields (names : list string) (from target : doc_class) : doc_class :=
  match names with
  | [] => target
  | n :: rest =>
      let target' :=
        match _fields target !! n, _fields from !! n with
        | None, Some fld =>
            {| _fields := <[n := fld]> (_fields target);
               _fields_ordered := _fields_ordered target ++ [n];
               attrs := attrs target |}
        | _, _ => target
        end in
      merge_fields rest from target'
  end.

Definition schema_subset (from target : doc_class) : bool :=
  forallb (in_fields target) (_fields_ordered from).

Section WithStore.
Context {store : Store}.

(** Modelled from the spec: [Dataset.add_samples(samples, expand_schema,
    num_samples)], which is not under [src/].  The records are consumed one
    at a time, in order; each is parsed (the lazy [map(parse_sample,
    samples)]), checked against the schema, or merged into it when expansion
    is enabled, and handed to the store.  The first failure ends the whole
    operation.  It returns the ids of the new samples in order;
    [num_samples] only feeds the progress display. *)
Fixpoint add_samples (parse : pyval -> M parser Sample) (samples : list pyval)
    (expand_schema : bool) (num_samples : option nat)
  : M (dataset * parser) (list string) := fun '(ds, p) =>
  match samples with
  | [] => (Ok [], (ds, p))
  | r :: rest =>
      match parse r p with
      | (Raise e, p') => (Raise e, (ds, p'))
      | (Ok sample, p') =>
          if negb expand_schema && negb (schema_subset (klass sample) (schema ds))
          then (Raise (ValueError SchemaNotSubset), (ds, p'))
          else
            let c := if expand_schema
                     then merge_fields (_fields_ordered (klass sample))
                            (klass sample) (schema ds)
                     else schema ds in
            match create_or_update (stored_samples ds) (self sample) with
            | Raise e =>
                (Raise e, ({| schema := c; stored_samples := stored_samples ds |}, p'))
            | Ok (id, held) =>
                match add_samples parse rest expand_schema num_samples
                        ({| schema := c; stored_samples := held |}, p') with
                | (Ok ids, st) => (Ok (id :: ids), st)
                | (Raise e, st) => (Raise e, st)
                end
            end
      end
  end.

Section WithLibraries.
Context {mongo : Mongo} {runtime : Runtime} {eta : Eta}.

(** [add_labeled_images(dataset, samples, sample_parser, label_field, tags,
    expand_schema)] *)
Definition add_labeled_images (samples : source) (label_field : string)
    (tags : pyval) (expand_schema : bool)
  : M (dataset * parser) (list string) := fun '(ds, p) =>
  if negb (has_image_path p) then (Raise (ValueError MustHaveImagePath), (ds, p))
  else if negb (is_labeled p) then (Raise (ValueError MustBeSubclass), (ds, p))
  else
    let ensured : result bool * dataset :=
      if expand_schema then
        match label_cls p with
        | Raise e => (Raise e, ds)
        | Ok None => (Ok expand_schema, ds)
        | Ok (Some c) =>
            match _ensure_label_field label_field c ds with
            | (Ok _, ds') => (Ok false, ds')
            | (Raise e, ds') => (Raise e, ds')
            end
        end
      else (Ok expand_schema, ds) in
    match ensured with
    | (Raise e, ds') => (Raise e, (ds', p))
    | (Ok expand_schema, ds') =>
        let num_samples := num_samples_of samples in
        add_samples (parse_sample label_field tags) (records samples)
          expand_schema num_samples (ds', p)
    end.

End WithLibraries.
End WithStore.

End Ingest.

(** ** The specification's tables, written as the specification words them *)

Module Spec.
Import Py.

(** The kinds of a field descriptor. *)
Inductive kind := Embedded | Bool | Int | String | List | Dict.

(** The first row of a priority table whose test accepts the value. *)
Fixpoint first_match {K} (table : list ((pyval -> bool) * K)) (v : pyval)
  : option K :=
  match table with
  | [] => None
  | (test, k) :: rest => if test v then Some k else first_match rest v
  end.

(** [infer_kind]: Embedded, then Bool, then Int, then String, then
    List/Sequence, then Dict/Mapping. *)
Definition kind_table : list ((pyval -> bool) * kind) :=
  [ (is_embedded, Embedded);
    (is_bool, Bool);
    (is_int, Int);
    (is_str, String);
    (fun v => is_list v || is_tuple v, List);
    (is_dict, Dict) ].

(** The inference fails with the uninferable-type error, a [TypeError] in
    the code, when no row matches. *)
Definition infer_kind (v : pyval) : result kind :=
  match first_match kind_table v with
  | Some k => Ok k
  | None => Raise TypeError
  end.

Definition field_class_of (k : kind) : ODM.field_cls :=
  match k with
  | Embedded => ODM.EmbeddedDocumentField
  | Bool => ODM.BooleanField
  | Int => ODM.IntField
  | String => ODM.StringField
  | List => ODM.ListField
  | Dict => ODM.DictField
  end.

(** The embedded document type recorded with an inferred kind. *)
Definition embedded_type_for (k : kind) (v : pyval) : option doc_type :=
  match k with
  | Embedded => ODM.type_of_doc v
  | _ => None
  end.

(** "A kind mismatch fails with [ValidationError] and leaves the Sample
    unmodified", for the write of [value] to the declared field [n]. *)
Definition mismatch_rejected {mongo : ODM.Mongo} (s : ODM.Sample) (n : string)
    (value : pyval) : Prop :=
  forall fld : ODM.Field,
    ODM._fields (ODM.klass s) !! n = Some fld ->
    ODM.validate fld value = false ->
    ODM.__setattr__ n value s = (Raise ValidationError, s).


(** Attribute coercion: string, then bool, then numeric, else opaque. *)
Inductive attribute_variant := Categorical | Boolean | Numeric | Opaque.

Definition attribute_table : list ((pyval -> bool) * attribute_variant) :=
  [ (is_str, Categorical); (is_bool, Boolean); (is_numeric, Numeric) ].

Definition coerce_attribute (v : pyval) : attribute_variant :=
  default Opaque (first_match attribute_table v).

Definition build_attribute (a : attribute_variant) (v : pyval) : pyval :=
  match a with
  | Categorical => fol.CategoricalAttribute v
  | Boolean => fol.BooleanAttribute v
  | Numeric => fol.NumericAttribute v
  | Opaque => fol.Attribute v
  end.

Section BoundingBoxes.
Context {runtime : Runtime}.




End BoundingBoxes.

End Spec.

(** ** The accessors of the parser protocol *)

Module Protocol.
Import Py Parsers.

Inductive accessor := GetImage | GetImagePath | GetImageMetadata | GetLabel.

Section WithLibraries.
Context {runtime : Runtime} {eta : Eta}.

Definition call (a : accessor) : M parser pyval :=
  match a with
  | GetImage => get_image
  | GetImagePath => get_image_path
  | GetImageMetadata => get_image_metadata
  | GetLabel => get_label
  end.

(** The parser after a series of accessor calls, whether they returned or
    raised. *)
Fixpoint call_all (l : list accessor) (p : parser) : parser :=
  match l with
  | [] => p
  | a :: l' => call_all l' (snd (call a p))
  end.

End WithLibraries.

(** Whether the accessor, as the class of the parser defines it, reads
    [self.current_sample].  The other ones raise without looking at the
    record: [get_image_metadata] of a class without metadata, [get_label]
    of a class without labels; [get_label] over an empty dictionary of
    fields has no field to read. *)
Definition reads_current_sample (a : accessor) (p : parser) : bool :=
  match p, a with
  | Plain ImageSampleParser _, (GetImage | GetImagePath) => true
  | Plain ImageSampleParser _, _ => false
  | Plain (FiftyOneUnlabeledImageSampleParser _) _, GetLabel => false
  | Plain (FiftyOneUnlabeledImageSampleParser _) _, _ => true
  | Plain (FiftyOneLabeledImageSampleParser (FieldDict []) _) _, GetLabel => false
  | Plain (FiftyOneLabeledImageSampleParser _ _) _, _ => true
  | Tuple _ _ _, GetImageMetadata => false
  | Tuple _ _ _, _ => true
  end.

(** The parser as its constructor leaves it. *)
Definition fresh (p : parser) : parser :=
  match p with
  | Plain c _ => new_plain c
  | Tuple c _ _ => new_tuple c
  end.

(** The memoized image of a parser that has the cache. *)
Definition cached_image (p : parser) : option pyval :=
  match p with
  | Plain _ _ => None
  | Tuple _ _ cache => Some cache
  end.

End Protocol.

(** ** Concrete libraries, a store and inputs for the examples *)

Module Examples.
Import Py ODM Parsers Ingest.

(** A runtime in which nothing beyond the modelled builtins is available. *)
Definition bare_runtime : Runtime :=
  {| str_other := fun _ => "<object>";
     long_true_divide := fun _ _ => Raise (External "long_true_divide");
     long_as_double := fun _ => Raise (External "long_as_double");
     ndarray_getitem := fun _ _ _ => Raise (External "ndarray.__getitem__");
     ndarray_iter := fun _ _ => Raise (External "ndarray.__iter__") |}.

(** An image library that knows one file, a 200 by 100 RGB image. *)
Definition image_200x100 : pyval := VArray [100; 200; 3] [].

Definition one_image : Eta :=
  {| etai_read := fun path =>
       match path with
       | VStr "img.png" => Ok image_200x100
       | _ => Raise (External "etai.read")
       end;
     np_asarray := fun obj =>
       match obj with
       | VArray _ _ => Ok obj
       | _ => Raise (External "np.asarray")
       end;
     etas_load_json := fun _ => Raise (External "etas.load_json");
     ImageLabels_from_json := fun _ => Raise (External "ImageLabels.from_json");
     ImageLabels_from_dict := fun _ => Raise (External "ImageLabels.from_dict");
     ImageLabels_expand := fun _ _ => Raise (External "ImageLabels.expand");
     ImageMetadata_build_for := fun _ => Raise (External "build_for") |}.

(** A store that appends and numbers the samples. *)
Definition appending_store : Store :=
  {| create_or_update := fun held i =>
       Ok (pretty (Z.of_nat (length held)), (held ++ [i])%list) |}.

Definition flag_field : Field :=
  {| ftype := BooleanField; db_field := "flag"; document_type := None;
     null := false; field := None; name := "flag" |}.

(** A sample of a class that declares the boolean field [flag], set. *)
Definition flagged_sample : Sample :=
  {| klass :=
       {| _fields := <["flag" := flag_field]> (_fields sample_class);
          _fields_ordered := _fields_ordered sample_class ++ ["flag"];
          attrs := attrs sample_class |};
     self :=
       {| _data := <["flag" := VBool true]> (<["filepath" := VStr "img.png"]> ∅);
          __dict__ := ∅; _in_db := false; saves := 0 |};
     warnings := 0 |}.

Definition absolute_detector : detection_config :=
  {| label_field := "label"; bounding_box_field := "bounding_box";
     confidence_field := None; attributes_field := None;
     classes := VNone; normalized := false |}.

Definition cat_box : pyval :=
  VDict [("label", VStr "cat");
         ("bounding_box", VList [VInt 20; VInt 10; VInt 40; VInt 20])].

Definition unexpanded : image_labels_config :=
  {| expand := false; prefix := None; labels_dict := None;
     multilabel := false; skip_non_categorical := false |}.

Definition empty_dataset : dataset :=
  {| schema := sample_class; stored_samples := [] |}.

End Examples.


(** ** [sample.py]: the views of a sample and of its schema *)

Module Views.
Import Py ODM.

(** The class hierarchy of the embedded documents of [fiftyone.core.labels]
    and [fiftyone.core.metadata], which are not part of these files:
    [issubclass a b]. *)
Class Hierarchy := {
  issubclass : doc_type -> doc_type -> bool;
}.

Definition field_cls_eqb (a b : field_cls) : bool :=
  match a, b with
  | BooleanField, BooleanField | IntField, IntField
  | StringField, StringField | ListField, ListField
  | DictField, DictField
  | EmbeddedDocumentField, EmbeddedDocumentField => true
  | _, _ => false
  end.

(** [d[k] = v] on the [OrderedDict] of [get_fields]: an existing key keeps
    its position. *)
Fixpoint od_set (k : string) (v : Field) (d : list (string * Field))
  : list (string * Field) :=
  match d with
  | [] => [(k, v)]
  | (k', v') :: d' =>
      if String.eqb k k' then (k, v) :: d' else (k', v') :: od_set k v d'
  end.

Section WithHierarchy.
Context {hierarchy : Hierarchy}.

(** The test in the loop of [get_fields]; [None] stands for the default
    [BaseField], of which every field is an instance.  None of the six field
    classes derives from another one. *)
Definition selected (field_type : option pyclass) (fld : Field) : result bool :=
  match field_type with
  | None => Ok true
  | Some (FieldClass t) => Ok (field_cls_eqb (ftype fld) t)
  | Some (DocClass d) =>
      match ftype fld with
      | EmbeddedDocumentField =>
          match document_type fld with
          | Some t => Ok (issubclass t d)
          | None => Raise TypeError
          end
      | _ => Ok false
      end
  | Some (OtherClass _) => Ok false
  end.

Fixpoint get_fields_loop (cls : doc_class) (field_type : option pyclass)
    (names : list string) (d : list (string * Field))
  : result (list (string * Field)) :=
  match names with
  | [] => Ok d
  | field_name :: rest =>
      match _fields cls !! field_name with
      | None => Raise KeyError
      | Some fld =>
          match selected field_type fld with
          | Raise e => Raise e
          | Ok true => get_fields_loop cls field_type rest (od_set field_name fld d)
          | Ok false => get_fields_loop cls field_type rest d
          end
      end
  end.

(** [ODMSample.get_fields(cls, field_type)].  For a class that is neither a
    field class nor a document class the code means to raise a [ValueError],
    but the message ["... %s or %s" % BaseField] has two places and one
    argument, so that formatting it raises [TypeError]. *)
Definition get_fields (cls : doc_class) (field_type : option pyclass)
  : result (list (string * Field)) :=
  match field_type with
  | Some (OtherClass _) => Raise TypeError
  | _ => get_fields_loop cls field_type (_fields_ordered cls) []
  end.

End WithHierarchy.

(** The fields of [names] that [sel] accepts, with their names, in order. *)
Definition listing (cls : doc_class) (sel : Field -> bool)
    (names : list string) : list (string * Field) :=
  omap (fun n =>
          match _fields cls !! n with
          | Some fld => if sel fld then Some (n, fld) else None
          | None => None
          end) names.

(** The embedded-document fields of a class below [d]. *)
Definition embeds_below {hierarchy : Hierarchy} (d : doc_type) (fld : Field)
  : bool :=
  match ftype fld, document_type fld with
  | EmbeddedDocumentField, Some t => issubclass t d
  | _, _ => false
  end.

(** The class after [add_field] appended the field [fld] under [n]. *)
Definition extended (c : doc_class) (n : string) (fld : Field) : doc_class :=
  {| _fields := <[n := fld]> (_fields c);
     _fields_ordered := _fields_ordered c ++ [n];
     attrs := attrs c |}.

(** The schema is consistent when its two views agree: the declaration
    order lists every field of the dict once, and nothing else. *)
Definition consistent (c : doc_class) : Prop :=
  NoDup (_fields_ordered c)
  /\ forall n, n ∈ _fields_ordered c <-> is_Some (_fields c !! n).

(** No field of the schema has a private name. *)
Definition public (c : doc_class) : Prop :=
  forall n, is_Some (_fields c !! n) -> String.prefix "_" n = false.

End Views.

(** ** [parsers.py]: the unlabeled ingestion entry point *)

Module Unlabeled.
Import Py ODM Parsers Ingest.

Section WithLibraries.
Context {runtime : Runtime} {eta : Eta}.

(** [add_images.parse_sample] *)
Definition parse_sample (tags : pyval) (sample : pyval) : M parser Sample :=
  fun p =>
  let p := with_sample sample p in
  (image_path <~ get_image_path ;;
   metadata <~ (fun p => if has_image_metadata p then get_image_metadata p
                         else (Ok VNone, p)) ;;
   ret (new_Sample image_path metadata tags)) p.

Section WithStore.
Context {store : Store}.

(** [add_images(dataset, samples, sample_parser, tags)] *)
Definition add_images (samples : source) (tags : pyval)
  : M (dataset * parser) (list string) := fun '(ds, p) =>
  if negb (has_image_path p) then (Raise (ValueError MustHaveImagePath), (ds, p))
  else if negb (is_unlabeled p) then (Raise (ValueError MustBeSubclass), (ds, p))
  else
    let num_samples := num_samples_of samples in
    add_samples (parse_sample tags) (records samples) false num_samples (ds, p).

End WithStore.
End WithLibraries.

(** The parsers whose [get_label] asks for the image: the detection parser
    with absolute boxes. *)
Definition needs_image (p : parser) : bool :=
  match p with
  | Tuple (ImageDetectionSampleParser cfg) _ _ => negb (normalized cfg)
  | _ => false
  end.

(** The [compute_metadata] of the parsers of FiftyOne samples. *)
Definition computes_metadata (p : parser) : bool :=
  match p with
  | Plain (FiftyOneUnlabeledImageSampleParser compute_metadata) _
  | Plain (FiftyOneLabeledImageSampleParser _ compute_metadata) _ =>
      compute_metadata
  | _ => false
  end.

(** The parsers that open the image file of a record during ingestion: to
    make absolute boxes relative, or to compute the metadata of the image. *)
Definition reads_images (p : parser) : bool :=
  needs_image p || computes_metadata p.

(** The libraries with another image reader, [etai.read] and [np.asarray];
    the metadata builder, which opens the image file too, stays as it is. *)
Definition with_image_reader (read asarray : pyval -> result pyval) (e : Eta)
  : Eta :=
  {| etai_read := read;
     np_asarray := asarray;
     etas_load_json := @etas_load_json e;
     ImageLabels_from_json := @ImageLabels_from_json e;
     ImageLabels_from_dict := @ImageLabels_from_dict e;
     ImageLabels_expand := @ImageLabels_expand e;
     ImageMetadata_build_for := @ImageMetadata_build_for e |}.

(** The libraries with another metadata builder,
    [ImageMetadata.build_for]. *)
Definition with_metadata_builder (build : pyval -> result pyval) (e : Eta)
  : Eta :=
  {| etai_read := @etai_read e;
     np_asarray := @np_asarray e;
     etas_load_json := @etas_load_json e;
     ImageLabels_from_json := @ImageLabels_from_json e;
     ImageLabels_from_dict := @ImageLabels_from_dict e;
     ImageLabels_expand := @ImageLabels_expand e;
     ImageMetadata_build_for := build |}.

End Unlabeled.

(** ** More inputs for the examples *)

Module MoreExamples.
Import Py ODM Parsers Ingest.

(** A validation that, like mongoengine's [DictField], also refuses a dict
    with a key that starts with a dollar sign. *)
Definition dollar_free (value : pyval) : bool :=
  match value with
  | VDict d => forallb (fun kv => negb (String.prefix "$" (fst kv))) d
  | _ => true
  end.

Definition strict_mongo : Mongo :=
  {| validate := fun fld value => kind_validate fld value && dollar_free value |}.

(** A sample that is in the database. *)
Definition persisted_sample : Sample :=
  {| klass := sample_class;
     self :=
       {| _data := <["filepath" := VStr "/data/img.png"]> ∅;
          __dict__ := ∅; _in_db := true; saves := 0 |};
     warnings := 0 |}.

(** Labels derive from [Label], image metadata from [Metadata], the attribute
    variants from [Attribute]. *)
Definition label_hierarchy : Views.Hierarchy :=
  {| Views.issubclass := fun a b =>
       doc_type_eqb a b
       || match a, b with
          | (Classification | Detections | ImageLabels), Label => true
          | ImageMetadata, Metadata => true
          | (CategoricalAttribute | BooleanAttribute | NumericAttribute),
            Attribute => true
          | _, _ => false
          end |}.

End MoreExamples.

(** ** [fiftyone/experimental/data.py]: the models of a dataset *)

Module Experimental.

(** [Dataset.register_model(self, name)], on the list [self._models]; [None]
    stands for the [ValueError] that a registered name raises. *)
Definition register_model (name : string) (_models : list string)
  : option (list string) :=
  if bool_decide (name ∈ _models) then None else Some (_models ++ [name])%list.

(** [Dataset.get_models(self)] *)
Definition get_models (_models : list string) : list string := _models.

(** The models after registering the names one after the other, a caller
    going on after each error. *)
Fixpoint register_all (names : list string) (_models : list string)
  : list string :=
  match names with
  | [] => _models
  | name :: rest =>
      register_all rest (default _models (register_model name _models))
  end.

End Experimental.
(** * Properties *)

Import Py ODM Parsers Ingest.

(** ** Type inference of implied fields *)

Section ImpliedFields.

(** Read on the constructors of a value, the table gives one kind per type. *)
Lemma infer_kind_by_type (v : pyval) :
  Spec.infer_kind v =
    match v with
    | VDoc _ _ => Ok Spec.Embedded
    | VBool _ => Ok Spec.Bool
    | VInt _ => Ok Spec.Int
    | VStr _ => Ok Spec.String
    | VList _ | VTuple _ => Ok Spec.List
    | VDict _ => Ok Spec.Dict
    | _ => Raise TypeError
    end.
Proof. destruct v; reflexivity. Qed.

(** C2. [_add_implied_field] decides the kind of the new field by the
    priority table Embedded, Bool, Int, String, List (lists and tuples),
    Dict, and creates the field of that kind; a value that matches no row
    makes it raise [TypeError], the uninferable-type error, and leaves the
    class as it was; a boolean, although it is an integer for Python, is
    inferred as Bool, and an integer that is no boolean as Int.  For a name
    that the class lacks, the field of the inferred kind is appended to the
    schema. *)
Theorem add_implied_field_follows_table :
  (forall (cls : doc_class) (field_name : string) (value : pyval),
      _add_implied_field field_name value cls =
        if in_fields cls field_name then (Raise AssertionError, cls)
        else match Spec.infer_kind value with
             | Ok k =>
                 add_field field_name (FieldClass (Spec.field_class_of k))
                   (Spec.embedded_type_for k value) None cls
             | Raise e => (Raise e, cls)
             end)
  /\ (forall value : pyval,
        Spec.infer_kind value =
          if is_embedded value then Ok Spec.Embedded
          else if is_bool value then Ok Spec.Bool
          else if is_int value then Ok Spec.Int
          else if is_str value then Ok Spec.String
          else if is_list value || is_tuple value then Ok Spec.List
          else if is_dict value then Ok Spec.Dict
          else Raise TypeError)
  /\ (forall b : bool,
        is_int (VBool b) = true /\ Spec.infer_kind (VBool b) = Ok Spec.Bool)
  /\ (forall z : Z, Spec.infer_kind (VInt z) = Ok Spec.Int)
  /\ (forall (cls : doc_class) (field_name : string) (value : pyval)
             (k : Spec.kind),
        _fields cls !! field_name = None ->
        Spec.infer_kind value = Ok k ->
        exists cls',
          _add_implied_field field_name value cls = (Ok (), cls')
          /\ ftype <$> _fields cls' !! field_name = Some (Spec.field_class_of k)
          /\ _fields_ordered cls' = (_fields_ordered cls ++ [field_name])%list)
  /\ (forall (cls : doc_class) (field_name : string) (value : pyval) (e : exn),
        _fields cls !! field_name = None ->
        Spec.infer_kind value = Raise e ->
        _add_implied_field field_name value cls = (Raise TypeError, cls)).
Proof.
  assert (Hcode : forall cls field_name value,
             _add_implied_field field_name value cls =
               if in_fields cls field_name then (Raise AssertionError, cls)
               else match Spec.infer_kind value with
                    | Ok k =>
                        add_field field_name
                          (FieldClass (Spec.field_class_of k))
                          (Spec.embedded_type_for k value) None cls
                    | Raise e => (Raise e, cls)
                    end).
  { intros cls field_name value. unfold _add_implied_field.
    destruct (in_fields cls field_name); [reflexivity|].
    rewrite infer_kind_by_type. destruct value; reflexivity. }
  split; [exact Hcode|]. split; [|split; [|split; [|split]]].
  - intros value. destruct value; reflexivity.
  - intros b. split; reflexivity.
  - intros z. reflexivity.
  - intros cls field_name value k Hnew Hk. rewrite Hcode, Hk.
    assert (Hin : in_fields cls field_name = false).
    { unfold in_fields. rewrite Hnew. reflexivity. }
    rewrite Hin. unfold add_field. rewrite Hin. simpl.
    eexists. split; [reflexivity|]. simpl. rewrite lookup_insert_eq.
    split; [|reflexivity]. destruct k; reflexivity.
  - intros cls field_name value e Hnew He. rewrite Hcode, He.
    assert (Hin : in_fields cls field_name = false).
    { unfold in_fields. rewrite Hnew. reflexivity. }
    rewrite Hin. rewrite infer_kind_by_type in He.
    destruct value; try discriminate; injection He as <-; reflexivity.
Qed.

End ImpliedFields.

(** ** Attribute coercion *)

Section Attributes.

(** C9. [_parse_attribute] coerces a value into exactly one attribute
    variant by the priority string, bool, numeric, else opaque: a string
    becomes categorical, a boolean (numeric for Python) boolean, an integer
    or a float numeric, anything else opaque; so [True] is boolean, ["red"]
    categorical, [3.5] numeric and a nested list opaque. *)
Theorem parse_attribute_follows_table :
  (forall value : pyval,
      _parse_attribute value =
        Spec.build_attribute (Spec.coerce_attribute value) value)
  /\ (forall value : pyval,
        Spec.coerce_attribute value =
          match value with
          | VStr _ => Spec.Categorical
          | VBool _ => Spec.Boolean
          | VInt _ | VFloat _ => Spec.Numeric
          | _ => Spec.Opaque
          end)
  /\ (forall b : bool, is_numeric (VBool b) = true)
  /\ _parse_attribute (VBool true) = fol.BooleanAttribute (VBool true)
  /\ _parse_attribute (VStr "red") = fol.CategoricalAttribute (VStr "red")
  /\ _parse_attribute (VFloat 3.5) = fol.NumericAttribute (VFloat 3.5)
  /\ _parse_attribute (VList [VList [VInt 1; VInt 2]; VList []])
     = fol.Attribute (VList [VList [VInt 1; VInt 2]; VList []]).
Proof.
  repeat split; try (intros value; destruct value; reflexivity).
Qed.

End Attributes.

(** ** The cursor of a parser *)

Section Cursor.
Context {runtime : Runtime} {eta : Eta}.
Import Protocol.

Lemma with_sample_fresh (b : pyval) (p : parser) :
  with_sample b p = with_sample b (fresh p).
Proof. destruct p; reflexivity. Qed.

Lemma fresh_with_sample (a : pyval) (p : parser) :
  fresh (with_sample a p) = fresh p.
Proof. destruct p; reflexivity. Qed.

Lemma fresh_current_image (p : parser) :
  fresh (snd (_current_image p)) = fresh p.
Proof.
  destruct p as [c s|c s cache]; simpl; [reflexivity|].
  destruct (is_none cache); [|reflexivity].
  destruct (_get_image (Tuple c s cache)); reflexivity.
Qed.

(** No accessor changes the class or the configuration of the parser. *)
Lemma fresh_call (a : accessor) (p : parser) :
  fresh (snd (call a p)) = fresh p.
Proof.
  destruct a; simpl.
  - destruct p as [[| |]|]; try reflexivity. apply fresh_current_image.
  - destruct p as [[| |]|]; reflexivity.
  - destruct p as [[| |]|]; reflexivity.
  - destruct p as [c s|c s cache].
    { destruct c as [| |[]]; reflexivity. }
    destruct c as [| |cfg|]; try reflexivity.
    unfold get_label.
    destruct (_ ← current_sample _; getitem _ (VInt 1)); [|reflexivity].
    unfold bind, lift, ret. destruct (negb (normalized cfg)); [|reflexivity].
    pose proof (fresh_current_image
                  (Tuple (ImageDetectionSampleParser cfg) s cache)) as Hf.
    destruct (_current_image _) as [[img|e] p']; exact Hf.
Qed.

Lemma fresh_call_all (l : list accessor) (p : parser) :
  fresh (call_all l p) = fresh p.
Proof.
  revert p. induction l as [|a l IH]; intros p; simpl; [reflexivity|].
  rewrite IH. apply fresh_call.
Qed.

Lemma current_sample_cleared (p : parser) :
  current_sample (clear_sample p) = Raise (ValueError NoCurrentSample).
Proof. destruct p; reflexivity. Qed.

(** C4. Positioning a parser on [b], after it was positioned on [a] and
    used in any way, leaves it exactly as a new parser of its class
    positioned on [b]: the record is [b] and the memoized image is gone, so
    every accessor answers as on that new parser.  [clear_sample] is
    idempotent, and after it every accessor that reads the current record
    raises the no-current-sample [ValueError] and leaves the parser
    cleared. *)
Theorem cursor_discipline :
  (forall (p : parser) (a b : pyval) (used : list accessor),
      with_sample b (call_all used (with_sample a p)) = with_sample b (fresh p))
  /\ (forall (p : parser) (a b : pyval) (used : list accessor) (acc : accessor),
        call acc (with_sample b (call_all used (with_sample a p)))
        = call acc (with_sample b (fresh p)))
  /\ (forall (p : parser) (b : pyval),
        _current_sample (with_sample b p) = b
        /\ (cached_image (with_sample b p) = None
            \/ cached_image (with_sample b p) = Some VNone))
  /\ (forall p : parser, clear_sample (clear_sample p) = clear_sample p)
  /\ (forall (p : parser) (acc : accessor),
        reads_current_sample acc p = true ->
        call acc (clear_sample p)
        = (Raise (ValueError NoCurrentSample), clear_sample p)).
Proof.
  assert (Hpos : forall p a b used,
             with_sample b (call_all used (with_sample a p))
             = with_sample b (fresh p)).
  { intros p a b used. rewrite with_sample_fresh, fresh_call_all.
    rewrite fresh_with_sample. reflexivity. }
  split; [exact Hpos|]. split; [|split; [|split]].
  - intros p a b used acc. rewrite Hpos. reflexivity.
  - intros p b. destruct p; simpl; auto.
  - intros p. destruct p; reflexivity.
  - intros p acc Hreads.
    destruct p as [[| |[f|[|kv d]]]|c]; destruct acc; simpl in Hreads;
      try discriminate; try reflexivity.
    + destruct kv; reflexivity.
    + destruct c; reflexivity.
Qed.

End Cursor.

(** ** Classification labels *)

Section ClassificationLabels.
Context {runtime : Runtime} {eta : Eta}.

(** C8. When [classes[target]] raises, whatever the exception (index out
    of range, no table, a key of the wrong type), the classification parser
    does not raise: it yields a [Classification] whose label is
    [str(target)].  A target that is [None] yields [None].  With the classes
    [["cat", "dog"]] and the target 5 the label is ["5"]. *)
Theorem classification_label_fallback :
  (forall (classes target image_or_path : pyval) (e : exn) (c s : pyval),
      is_none target = false ->
      getitem classes target = Raise e ->
      classification_parse_label classes target
      = Ok (fol.Classification (VStr (str target)))
      /\ get_label (with_sample (VTuple [image_or_path; target])
                      (Tuple (ImageClassificationSampleParser classes) c s))
         = (Ok (fol.Classification (VStr (str target))),
            Tuple (ImageClassificationSampleParser classes)
              (VTuple [image_or_path; target]) VNone))
  /\ (forall target : pyval,
        is_none target = false ->
        classification_parse_label VNone target
        = Ok (fol.Classification (VStr (str target))))
  /\ (forall classes target : pyval,
        exists v, classification_parse_label classes target = Ok v)
  /\ (forall classes image_or_path c s : pyval,
        classification_parse_label classes VNone = Ok VNone
        /\ get_label (with_sample (VTuple [image_or_path; VNone])
                        (Tuple (ImageClassificationSampleParser classes) c s))
           = (Ok VNone,
              Tuple (ImageClassificationSampleParser classes)
                (VTuple [image_or_path; VNone]) VNone))
  /\ classification_parse_label (VList [VStr "cat"; VStr "dog"]) (VInt 5)
     = Ok (fol.Classification (VStr "5")).
Proof.
  split; [|split; [|split; [|split]]].
  - intros classes target image_or_path e c s Hnone Hfail.
    assert (Hp : classification_parse_label classes target
                 = Ok (fol.Classification (VStr (str target)))).
    { unfold classification_parse_label. rewrite Hnone, Hfail. reflexivity. }
    split; [exact Hp|].
    simpl. rewrite Hp. reflexivity.
  - intros target Hnone. unfold classification_parse_label.
    rewrite Hnone. reflexivity.
  - intros classes target. unfold classification_parse_label.
    destruct (is_none target); eauto.
  - intros classes image_or_path c s. split; reflexivity.
  - reflexivity.
Qed.

End ClassificationLabels.

(** ** Multi-task labels *)

Section ImageLabelsNeverNone.
Context {mongo : Mongo} {runtime : Runtime} {eta : Eta}.

Lemma image_labels_parse_unexpanded (cfg : image_labels_config) (labels v : pyval) :
  expand cfg = false ->
  image_labels_parse_label cfg labels = Ok v ->
  exists raw, v = fol.ImageLabels raw.
Proof.
  intros Hexp. unfold image_labels_parse_label.
  destruct (if is_str labels then _ else _) as [raw|e]; simpl; [|discriminate].
  rewrite Hexp. simpl. intros [= <-]. eauto.
Qed.

(** C10. With [expand=False] the multi-task parser never returns [None]
    from [get_label]: whatever it returns is an [ImageLabels] document, and
    on a record whose label payload is [None] it returns [ImageLabels] around
    that [None].  The ingestion pipeline therefore writes the label field of
    such a record, where the classification parser and the detection parser
    (with normalized boxes) yield [None] for the same record and the pipeline
    writes nothing. *)
Theorem image_labels_never_none :
  (forall (cfg : image_labels_config) (sample c s v : pyval) (p' : parser),
      expand cfg = false ->
      get_label (with_sample sample (Tuple (ImageLabelsSampleParser cfg) c s))
      = (Ok v, p') ->
      is_none v = false /\ exists raw, v = fol.ImageLabels raw)
  /\ (forall (cfg : image_labels_config) (image_or_path c s : pyval),
        expand cfg = false ->
        get_label (with_sample (VTuple [image_or_path; VNone])
                     (Tuple (ImageLabelsSampleParser cfg) c s))
        = (Ok (fol.ImageLabels VNone),
           Tuple (ImageLabelsSampleParser cfg)
             (VTuple [image_or_path; VNone]) VNone))
  /\ (forall (cfg : image_labels_config) (label_field path : string)
             (tags c s : pyval),
        expand cfg = false ->
        fst (parse_sample label_field tags (VTuple [VStr path; VNone])
               (Tuple (ImageLabelsSampleParser cfg) c s))
        = updated (__setitem__ label_field (fol.ImageLabels VNone)
                     (new_Sample (VStr path) VNone tags)))
  /\ (forall (classes : pyval) (label_field path : string) (tags c s : pyval),
        fst (parse_sample label_field tags (VTuple [VStr path; VNone])
               (Tuple (ImageClassificationSampleParser classes) c s))
        = Ok (new_Sample (VStr path) VNone tags))
  /\ (forall (cfg : detection_config) (label_field path : string)
             (tags c s : pyval),
        normalized cfg = true ->
        fst (parse_sample label_field tags (VTuple [VStr path; VNone])
               (Tuple (ImageDetectionSampleParser cfg) c s))
        = Ok (new_Sample (VStr path) VNone tags)).
Proof.
  split; [|split; [|split; [|split]]].
  - intros cfg sample c s v p' Hexp. simpl.
    destruct (_ ← current_sample _; _) as [v'|e] eqn:Hget; [|discriminate].
    intros [= -> _].
    destruct (current_sample _) as [cs|]; simpl in Hget; [|discriminate].
    destruct (getitem cs (VInt 1)) as [labels|]; simpl in Hget; [|discriminate].
    destruct (image_labels_parse_unexpanded cfg labels v Hexp Hget) as [raw ->].
    split; [reflexivity|eauto].
  - intros cfg image_or_path c s Hexp. simpl.
    unfold image_labels_parse_label. simpl. rewrite Hexp. reflexivity.
  - intros cfg label_field path tags c s Hexp.
    unfold parse_sample, bind. simpl.
    unfold image_labels_parse_label. simpl. rewrite Hexp. simpl.
    reflexivity.
  - intros classes label_field path tags c s. reflexivity.
  - intros cfg label_field path tags c s Hnorm.
    unfold parse_sample, bind. simpl. rewrite Hnorm. reflexivity.
Qed.

End ImageLabelsNeverNone.

(** ** Writes to the fields of a sample *)

Section FieldWrites.
Context {mongo : Mongo}.

Lemma in_fields_lookup (c : doc_class) (n : string) (fld : Field) :
  _fields c !! n = Some fld -> in_fields c n = true.
Proof. intros Hf. unfold in_fields. rewrite Hf. reflexivity. Qed.

Lemma in_fields_true (c : doc_class) (n : string) :
  in_fields c n = true <-> is_Some (_fields c !! n).
Proof. unfold in_fields. apply bool_decide_eq_true. Qed.

Lemma in_fields_false (c : doc_class) (n : string) :
  in_fields c n = false <-> _fields c !! n = None.
Proof.
  unfold in_fields. rewrite bool_decide_eq_false, eq_None_not_Some. reflexivity.
Qed.

Lemma hasattr_field (s : Sample) (n : string) :
  in_fields (klass s) n = true -> hasattr s n = Ok true.
Proof. intros Hin. unfold hasattr, getattribute. rewrite Hin. reflexivity. Qed.

Lemma has_non_field_field (s : Sample) (n : string) :
  in_fields (klass s) n = true -> has_non_field s n = Ok false.
Proof.
  intros Hin. unfold has_non_field. rewrite (hasattr_field s n Hin), Hin.
  reflexivity.
Qed.

(** [hasattr] on a name that is no property: it never raises. *)
Lemma hasattr_plain (s : Sample) (n : string) :
  is_property n = false ->
  hasattr s n
  = Ok (in_fields (klass s) n
        || bool_decide (is_Some (__dict__ (self s) !! n))
        || bool_decide (n ∈ attrs (klass s))).
Proof.
  intros Hprop. unfold hasattr, getattribute. rewrite Hprop.
  destruct (in_fields (klass s) n); [reflexivity|]. simpl.
  destruct (__dict__ (self s) !! n) as [v|] eqn:Hd.
  - rewrite bool_decide_eq_true_2 by eauto. reflexivity.
  - rewrite (bool_decide_eq_false_2 (is_Some None)) by (intros [? ?]; discriminate).
    simpl. destruct (bool_decide (n ∈ attrs (klass s))); reflexivity.
Qed.

(** [hasattr] answers, or raises what the property raises. *)
Lemma hasattr_absent (s : Sample) (n : string) :
  hasattr s n = Ok false ->
  in_fields (klass s) n = false
  /\ is_property n = false
  /\ __dict__ (self s) !! n = None
  /\ n ∉ attrs (klass s).
Proof.
  unfold hasattr, getattribute.
  destruct (in_fields (klass s) n); [discriminate|].
  destruct (is_property n) eqn:Hprop.
  - unfold get_property, filename.
    destruct (String.eqb n "filename"); [|discriminate].
    destruct (default VNone (_data (self s) !! "filepath")); discriminate.
  - destruct (__dict__ (self s) !! n); [discriminate|].
    destruct (bool_decide (n ∈ attrs (klass s))) eqn:Ha; [discriminate|].
    intros _. apply bool_decide_eq_false in Ha. auto.
Qed.

(** The write to a declared field whose name is not private: validation of
    a value that is not [None], then the store, then the autosave. *)
Lemma setattr_declared (s : Sample) (n : string) (fld : Field) (value : pyval) :
  String.prefix "_" n = false ->
  _fields (klass s) !! n = Some fld ->
  __setattr__ n value s =
    if negb (is_none value) && negb (validate fld value)
    then (Raise ValidationError, s)
    else (super_setattr n value ;;;
          if negb (bool_decide (n ∈ ["_cls"; "id"])) && _in_db (self s)
          then save else ret ()) s.
Proof.
  intros Hp Hf. unfold __setattr__. rewrite Hp.
  rewrite (has_non_field_field s n (in_fields_lookup _ _ _ Hf)).
  unfold hasattr_cls. rewrite (in_fields_lookup _ _ _ Hf). simpl.
  rewrite Hf. reflexivity.
Qed.

(** [set_field] on a declared field is the attribute write, whatever
    [create] is. *)
Lemma set_field_declared (s : Sample) (n : string) (fld : Field)
    (value : pyval) (create : bool) :
  String.prefix "_" n = false ->
  _fields (klass s) !! n = Some fld ->
  set_field n value create s = __setattr__ n value s.
Proof.
  intros Hp Hf. unfold set_field. rewrite Hp.
  rewrite (has_non_field_field s n (in_fields_lookup _ _ _ Hf)).
  rewrite (in_fields_lookup _ _ _ Hf). reflexivity.
Qed.

(** The outcome of an accepted write. *)
Lemma accepted_write (s : Sample) (n : string) (fld : Field) (value : pyval) :
  _fields (klass s) !! n = Some fld ->
  exists s',
    (super_setattr n value ;;;
     if negb (bool_decide (n ∈ ["_cls"; "id"])) && _in_db (self s)
     then save else ret ()) s = (Ok (), s')
    /\ klass s' = klass s
    /\ _data (self s') = <[n := stored fld value]> (_data (self s))
    /\ __dict__ (self s') = __dict__ (self s)
    /\ warnings s' = warnings s.
Proof.
  intros Hf. unfold bind, super_setattr. rewrite Hf.
  destruct (negb _ && _in_db (self s)); simpl; eexists; repeat split.
Qed.

(** C3, as the code has it.  A write of a value other than [None] to a
    declared field (whose name does not start with the reserved underscore)
    is validated against the field before anything is stored: when the
    validation fails, the write raises [ValidationError] and the sample is
    exactly as before; when it passes, the value is stored under the field.
    [None] is never validated: the write is accepted and stores the field's
    null value. *)
Theorem write_validated_unless_none :
  forall (s : Sample) (n : string) (fld : Field) (value : pyval)
         (create : bool),
    String.prefix "_" n = false ->
    _fields (klass s) !! n = Some fld ->
    (is_none value = false ->
     validate fld value = false ->
     __setattr__ n value s = (Raise ValidationError, s)
     /\ set_field n value create s = (Raise ValidationError, s))
    /\ (is_none value = false ->
        validate fld value = true ->
        exists s',
          __setattr__ n value s = (Ok (), s')
          /\ set_field n value create s = (Ok (), s')
          /\ klass s' = klass s
          /\ _data (self s') = <[n := value]> (_data (self s)))
    /\ (exists s',
          __setattr__ n VNone s = (Ok (), s')
          /\ set_field n VNone create s = (Ok (), s')
          /\ _data (self s') = <[n := stored fld VNone]> (_data (self s))).
Proof.
  intros s n fld value create Hp Hf.
  rewrite !(set_field_declared s n fld _ create Hp Hf).
  rewrite !(setattr_declared s n fld _ Hp Hf).
  split; [|split].
  - intros Hnone Hbad. rewrite Hnone, Hbad. simpl. split; reflexivity.
  - intros Hnone Hgood. rewrite Hnone, Hgood. simpl.
    destruct (accepted_write s n fld value Hf) as (s' & Hw & Hk & Hd & _).
    exists s'. repeat split; try assumption.
    rewrite Hd. unfold stored. rewrite Hnone. reflexivity.
  - simpl.
    destruct (accepted_write s n fld VNone Hf) as (s' & Hw & Hk & Hd & _).
    exists s'. repeat split; assumption.
Qed.

End FieldWrites.

(** The claim C3 as the specification has it fails on [None]: the boolean
    field [flag] does not validate [None], and yet the write of [None] is
    accepted and changes the sample. *)
Lemma none_write_not_rejected :
  ~ @Spec.mismatch_rejected kind_mongo Examples.flagged_sample "flag" VNone.
Proof.
  intros Hclaim.
  specialize (Hclaim Examples.flag_field eq_refl eq_refl).
  vm_compute in Hclaim. discriminate Hclaim.
Qed.

(** ** Unknown fields *)

Section UnknownFields.
Context {mongo : Mongo}.

Lemma with_klass_same (s : Sample) : with_klass (klass s) s = s.
Proof. destruct s; reflexivity. Qed.




End UnknownFields.


(** ** Absolute bounding boxes *)

Section BoundingBoxes.
Context {runtime : Runtime} {eta : Eta}.

Lemma for_each_Forall2 {A B} (f : A -> result B) (l : list A) (ys : list B) :
  for_each f l = Ok ys <-> Forall2 (fun x y => f x = Ok y) l ys.
Proof.
  revert ys. induction l as [|x l IH]; intros ys; simpl.
  - split.
    + intros [= <-]. constructor.
    + intros Hall. inversion Hall. reflexivity.
  - split.
    + destruct (f x) as [y|e] eqn:Hx; simpl; [|discriminate].
      destruct (for_each f l) as [ys'|e] eqn:Hl; simpl; [|discriminate].
      intros [= <-]. constructor; [exact Hx|]. apply IH. reflexivity.
    + intros Hall. inversion Hall as [|x' y l' ys' Hx Hrest]; subst.
      rewrite Hx. simpl. apply IH in Hrest. rewrite Hrest. reflexivity.
Qed.






End BoundingBoxes.

(** ** The label of an ingested record *)

Section LabelFanOut.
Context {mongo : Mongo} {runtime : Runtime} {eta : Eta}.




End LabelFanOut.

(** ** Pre-creation of the label field *)

Section LabelFieldFirst.
Context {store : Store} {mongo : Mongo} {runtime : Runtime} {eta : Eta}.

(** Without schema expansion, [add_samples] leaves the schema as it is,
    whether it returns or raises. *)
Lemma add_samples_keeps_schema (parse : pyval -> M parser Sample)
    (samples : list pyval) (num_samples : option nat) (ds : dataset)
    (p : parser) :
  schema (fst (snd (add_samples parse samples false num_samples (ds, p))))
  = schema ds.
Proof.
  revert ds p. induction samples as [|r rest IH]; intros ds p; simpl;
    [reflexivity|].
  destruct (parse r p) as [[sample|e] p']; [|reflexivity].
  destruct (negb (schema_subset (klass sample) (schema ds))); [reflexivity|].
  destruct (create_or_update (stored_samples ds) (self sample))
    as [[id held]|e]; [|reflexivity].
  specialize (IH {| schema := schema ds; stored_samples := held |} p').
  destruct (add_samples parse rest false num_samples _) as [[ids|e] st];
    exact IH.
Qed.

(** After [_ensure_label_field] the field is in the schema, whether it was
    there, was created, or clashes with a field of another kind. *)
Lemma ensure_label_field_present (label_field : string) (c : doc_type)
    (ds : dataset) :
  is_Some (_fields (schema (snd (_ensure_label_field label_field c ds)))
             !! label_field).
Proof.
  unfold _ensure_label_field.
  destruct (_fields (schema ds) !! label_field) as [fld|] eqn:Hf.
  - destruct (compatible fld c); simpl; rewrite Hf; eauto.
  - unfold add_field. rewrite (proj2 (in_fields_false _ _) Hf). simpl.
    rewrite lookup_insert_eq. eauto.
Qed.

(** C1. When [add_labeled_images] is called with schema expansion enabled
    and a parser whose [label_cls] is a class, it first ensures the label
    field in the schema of the dataset, before the parser sees any record,
    and then adds the samples with expansion disabled.  Whatever the records
    are (in particular when the label of every one is [None]) and whether
    the call returns or raises, the schema in the end is the schema as the
    ensuring left it, and it has the label field; a field that was missing
    is an embedded-document field of the label class. *)
Theorem label_field_ensured_first :
  forall (samples : source) (label_field : string) (tags : pyval)
         (ds : dataset) (p : parser) (c : doc_type),
    label_cls p = Ok (Some c) ->
    let ensured := _ensure_label_field label_field c ds in
    let outcome := add_labeled_images samples label_field tags true (ds, p) in
    outcome
    = match ensured with
      | (Ok _, ds') =>
          add_samples (parse_sample label_field tags) (records samples)
            false (num_samples_of samples) (ds', p)
      | (Raise e, ds') => (Raise e, (ds', p))
      end
    /\ schema (fst (snd outcome)) = schema (snd ensured)
    /\ is_Some (_fields (schema (fst (snd outcome))) !! label_field)
    /\ (_fields (schema ds) !! label_field = None ->
        fst ensured = Ok ()
        /\ _fields (schema (fst (snd outcome))) !! label_field
           = Some {| ftype := EmbeddedDocumentField; db_field := label_field;
                     document_type := Some c; null := true; field := None;
                     name := label_field |}).
Proof.
  intros samples label_field tags ds p c Hcls ensured outcome.
  assert (Hdone : outcome
                  = match ensured with
                    | (Ok _, ds') =>
                        add_samples (parse_sample label_field tags)
                          (records samples) false (num_samples_of samples)
                          (ds', p)
                    | (Raise e, ds') => (Raise e, (ds', p))
                    end).
  { subst outcome ensured. unfold add_labeled_images. rewrite Hcls.
    assert (Hpath : has_image_path p = true) by (destruct p as [[| |]|]; reflexivity).
    assert (Hlab : is_labeled p = true).
    { destruct p as [[| |]|[| | |]]; try reflexivity; discriminate. }
    rewrite Hpath, Hlab. simpl.
    destruct (_ensure_label_field label_field c ds) as [[[]|e] ds'];
      reflexivity. }
  assert (Hschema : schema (fst (snd outcome)) = schema (snd ensured)).
  { rewrite Hdone. destruct ensured as [[[]|e] ds']; simpl; [|reflexivity].
    apply add_samples_keeps_schema. }
  split; [exact Hdone|]. split; [exact Hschema|]. split.
  - rewrite Hschema. apply ensure_label_field_present.
  - intros Hmissing. rewrite Hschema. subst ensured.
    unfold _ensure_label_field, add_field. rewrite Hmissing.
    rewrite (proj2 (in_fields_false _ _) Hmissing). simpl.
    split; [reflexivity|]. apply lookup_insert_eq.
Qed.

End LabelFieldFirst.

(** ** The theorems at concrete inputs *)

Lemma add_implied_field_follows_table_witness :
  _fields sample_class !! "is_night" = None
  /\ Spec.infer_kind (VBool true) = Ok Spec.Bool
  /\ exists cls',
       _add_implied_field "is_night" (VBool true) sample_class = (Ok (), cls')
       /\ ftype <$> _fields cls' !! "is_night" = Some BooleanField
       /\ _fields_ordered cls'
          = ["filepath"; "tags"; "metadata"; "is_night"].
Proof.
  destruct add_implied_field_follows_table as (_ & _ & _ & _ & Hcreated & _).
  split; [reflexivity|]. split; [reflexivity|].
  apply (Hcreated sample_class "is_night" (VBool true) Spec.Bool);
    reflexivity.
Defined.

(** Two records without labels go through the detection parser of FiftyOne
    datasets into an empty dataset: the call returns the two ids, the schema
    has the label field, and no stored sample has a value for it. *)
Lemma label_field_ensured_first_witness :
  let p := new_tuple (FiftyOneImageDetectionSampleParser VNone) in
  let samples :=
    {| records := [VTuple [VStr "img.png"; VNone]; VTuple [VStr "b.png"; VNone]];
       has_len := true |} in
  let outcome :=
    @add_labeled_images Examples.appending_store kind_mongo
      Examples.bare_runtime Examples.one_image
      samples "ground_truth" VNone true (Examples.empty_dataset, p) in
  label_cls p = Ok (Some Detections)
  /\ is_Some (_fields (schema (fst (snd outcome))) !! "ground_truth")
  /\ fst outcome = Ok ["0"; "1"]
  /\ Forall (fun i => _data i !! "ground_truth" = None)
       (stored_samples (fst (snd outcome))).
Proof.
  intros p samples outcome.
  destruct (@label_field_ensured_first Examples.appending_store kind_mongo
              Examples.bare_runtime Examples.one_image
              samples "ground_truth" VNone Examples.empty_dataset p Detections
              eq_refl) as (_ & _ & Hfield & _).
  split; [reflexivity|]. split; [exact Hfield|].
  split; [vm_compute; reflexivity|].
  vm_compute. repeat constructor.
Defined.

Lemma write_validated_unless_none_witness :
  String.prefix "_" "flag" = false
  /\ _fields (klass Examples.flagged_sample) !! "flag" = Some Examples.flag_field
  /\ is_none (VInt 3) = false
  /\ @validate kind_mongo Examples.flag_field (VInt 3) = false
  /\ @__setattr__ kind_mongo "flag" (VInt 3) Examples.flagged_sample
     = (Raise ValidationError, Examples.flagged_sample)
  /\ @set_field kind_mongo "flag" (VInt 3) false Examples.flagged_sample
     = (Raise ValidationError, Examples.flagged_sample).
Proof.
  destruct (@write_validated_unless_none kind_mongo Examples.flagged_sample
              "flag" Examples.flag_field (VInt 3) false eq_refl eq_refl)
    as (Hrejected & _ & _).
  destruct (Hrejected eq_refl eq_refl) as [Hattr Hset].
  repeat split; try reflexivity; assumption.
Defined.

Lemma cursor_discipline_witness :
  let p := new_tuple LabeledImageTupleSampleParser in
  Protocol.reads_current_sample Protocol.GetLabel p = true
  /\ @Protocol.call Examples.bare_runtime Examples.one_image
       Protocol.GetLabel (clear_sample p)
     = (Raise (ValueError NoCurrentSample), clear_sample p)
  /\ with_sample (VTuple [VStr "b.png"; VStr "dog"])
       (@Protocol.call_all Examples.bare_runtime Examples.one_image
          [Protocol.GetImage; Protocol.GetLabel]
          (with_sample (VTuple [VStr "img.png"; VStr "cat"]) p))
     = with_sample (VTuple [VStr "b.png"; VStr "dog"]) p.
Proof.
  intros p.
  destruct (@cursor_discipline Examples.bare_runtime Examples.one_image)
    as (Hpos & _ & _ & _ & Hcleared).
  split; [reflexivity|]. split.
  - apply Hcleared. reflexivity.
  - apply (Hpos p).
Defined.




Lemma classification_label_fallback_witness :
  let classes := VList [VStr "cat"; VStr "dog"] in
  is_none (VInt 5) = false
  /\ @getitem Examples.bare_runtime classes (VInt 5) = Raise IndexError
  /\ @classification_parse_label Examples.bare_runtime classes (VInt 5)
     = Ok (fol.Classification (VStr "5")).
Proof.
  intros classes.
  destruct (@classification_label_fallback Examples.bare_runtime
              Examples.one_image) as [Hfallback _].
  destruct (Hfallback classes (VInt 5) (VStr "img.png") IndexError VNone VNone
              eq_refl eq_refl) as [Hlabel _].
  split; [reflexivity|]. split; [reflexivity|]. exact Hlabel.
Defined.

Lemma image_labels_never_none_witness :
  expand Examples.unexpanded = false
  /\ @get_label Examples.bare_runtime Examples.one_image
       (with_sample (VTuple [VStr "img.png"; VNone])
          (new_tuple (ImageLabelsSampleParser Examples.unexpanded)))
     = (Ok (fol.ImageLabels VNone),
        Tuple (ImageLabelsSampleParser Examples.unexpanded)
          (VTuple [VStr "img.png"; VNone]) VNone).
Proof.
  destruct (@image_labels_never_none kind_mongo Examples.bare_runtime
              Examples.one_image) as (_ & Hnone & _).
  split; [reflexivity|].
  apply (Hnone Examples.unexpanded (VStr "img.png") VNone VNone). reflexivity.
Defined.

(** * Further properties of the code *)

(** ** What [set_field] does to a sample and to its class *)

Section SetFieldOutcome.
Context {mongo : Mongo}.
Import Views.

Lemma add_field_ok (cls cls' : doc_class) (n : string) (ft : pyclass)
    (edt : option doc_type) (sub : option field_cls) :
  add_field n ft edt sub cls = (Ok (), cls') ->
  _fields cls !! n = None
  /\ exists (t : field_cls) (fld : Field),
       cls' = extended cls n fld
       /\ ft = FieldClass t /\ ftype fld = t /\ name fld = n /\ db_field fld = n.
Proof.
  unfold add_field. destruct (in_fields cls n) eqn:Hin; [discriminate|].
  apply in_fields_false in Hin.
  destruct ft as [t| |]; simpl; try discriminate.
  intros [= <-]. split; [exact Hin|].
  exists t. destruct t; eexists; (split; [reflexivity|]); repeat split.
Qed.

Lemma add_implied_extends (cls : doc_class) (n : string) (value : pyval) :
  in_fields cls n = false ->
  (exists fld,
      _add_implied_field n value cls = (Ok (), extended cls n fld)
      /\ name fld = n)
  \/ _add_implied_field n value cls = (Raise TypeError, cls).
Proof.
  intros Hn. unfold _add_implied_field, add_field. rewrite Hn.
  destruct value; simpl; eauto.
Qed.

(** The write to a declared public field, with all its effects. *)
Lemma setattr_outcome (s s' : Sample) (n : string) (fld : Field)
    (value : pyval) (r : result unit) :
  String.prefix "_" n = false ->
  _fields (klass s) !! n = Some fld ->
  __setattr__ n value s = (r, s') ->
  klass s' = klass s
  /\ warnings s' = warnings s
  /\ __dict__ (self s') = __dict__ (self s)
  /\ _in_db (self s') = _in_db (self s)
  /\ match r with
     | Ok _ =>
         _data (self s') = <[n := stored fld value]> (_data (self s))
         /\ saves (self s')
            = (if _in_db (self s) && negb (bool_decide (n ∈ ["_cls"; "id"]))
               then S (saves (self s)) else saves (self s))
     | Raise e =>
         e = ValidationError
         /\ is_none value = false
         /\ validate fld value = false
         /\ self s' = self s
     end.
Proof.
  intros Hp Hf. rewrite (setattr_declared s n fld value Hp Hf).
  destruct (negb (is_none value)) eqn:Hnone; simpl.
  - destruct (validate fld value) eqn:Hv; simpl.
    + unfold bind, super_setattr. rewrite Hf.
      destruct (bool_decide (n ∈ ["_cls"; "id"])); simpl;
        destruct (_in_db (self s)) eqn:Hdb; simpl;
        intros [= <- <-]; simpl; rewrite ?Hdb; repeat split.
    + intros [= <- <-]. apply negb_true_iff in Hnone. repeat split; auto.
  - unfold bind, super_setattr. rewrite Hf.
    destruct (bool_decide (n ∈ ["_cls"; "id"])); simpl;
      destruct (_in_db (self s)) eqn:Hdb; simpl;
      intros [= <- <-]; simpl; rewrite ?Hdb; repeat split.
Qed.

(** Every outcome of [set_field]. *)
Lemma set_field_outcome (s s' : Sample) (n : string) (value : pyval)
    (create : bool) (r : result unit) :
  set_field n value create s = (r, s') ->
  (klass s' = klass s
   \/ exists fld,
        _fields (klass s) !! n = None /\ create = true
        /\ name fld = n /\ klass s' = extended (klass s) n fld)
  /\ warnings s' = warnings s
  /\ __dict__ (self s') = __dict__ (self s)
  /\ _in_db (self s') = _in_db (self s)
  /\ match r with
     | Ok _ =>
         String.prefix "_" n = false
         /\ exists fld,
              _fields (klass s') !! n = Some fld
              /\ _data (self s') = <[n := stored fld value]> (_data (self s))
              /\ saves (self s')
                 = (if _in_db (self s) && negb (bool_decide (n ∈ ["_cls"; "id"]))
                    then S (saves (self s)) else saves (self s))
     | Raise _ => self s' = self s
     end.
Proof.
  unfold set_field.
  destruct (String.prefix "_" n) eqn:Hp; [intros [= <- <-]; auto 10|].
  destruct (has_non_field s n) as [[|]|e];
    [intros [= <- <-]; auto 10| |intros [= <- <-]; auto 10].
  destruct (in_fields (klass s) n) eqn:Hin; simpl.
  - apply in_fields_true in Hin as [fld Hf]. unfold bind, ret. intros Hrun.
    destruct (setattr_outcome s s' n fld value r Hp Hf Hrun)
      as (Hk & Hw & Hd & Hdb & Hr).
    split; [left; exact Hk|]. repeat (split; [assumption|]).
    destruct r as [[]|e].
    + split; [reflexivity|]. exists fld. rewrite Hk. tauto.
    + tauto.
  - apply in_fields_false in Hin.
    destruct create; [|intros [= <- <-]; auto 10].
    unfold bind, on_class.
    destruct (add_implied_extends (klass s) n value
                (proj2 (in_fields_false _ _) Hin)) as [(fld & -> & Hname)| ->].
    + intros Hrun.
      assert (Hf : _fields (klass (with_klass (extended (klass s) n fld) s)) !! n
                   = Some fld) by (simpl; apply lookup_insert_eq).
      destruct (setattr_outcome _ s' n fld value r Hp Hf Hrun)
        as (Hk & Hw & Hd & Hdb & Hr).
      simpl in Hk, Hw, Hd, Hdb, Hr.
      split; [right; exists fld; auto|]. repeat (split; [assumption|]).
      destruct r as [[]|e].
      * split; [reflexivity|]. exists fld. rewrite Hk. simpl.
        rewrite lookup_insert_eq. tauto.
      * tauto.
    + intros [= <- <-]. rewrite with_klass_same. auto 10.
Qed.

End SetFieldOutcome.

(** ** The schema under [add_field] and [set_field] *)

Section SchemaGrowth.
Context {mongo : Mongo}.
Import Views.

Lemma consistent_extended (c : doc_class) (n : string) (fld : Field) :
  consistent c -> _fields c !! n = None -> consistent (extended c n fld).
Proof.
  intros [Hnodup Hsame] Hnew. split; simpl.
  - apply NoDup_app. split; [exact Hnodup|]. split; [|apply NoDup_singleton].
    intros k Hk Hk'. apply list_elem_of_singleton in Hk'. subst k.
    apply Hsame in Hk. rewrite Hnew in Hk. destruct Hk as [? [=]].
  - intros k. rewrite elem_of_app, list_elem_of_singleton.
    destruct (decide (k = n)) as [->|Hne].
    + rewrite lookup_insert_eq. split; eauto.
    + rewrite lookup_insert_ne by congruence. rewrite <- Hsame. tauto.
Qed.

(** X1. A field can be added once: after [add_field] created the field,
    every further [add_field] of that name, of whatever type, raises the
    field-exists [ValueError], [_add_implied_field] trips its assertion, and
    both leave the class as it is. *)
Theorem field_added_once :
  forall (cls cls' : doc_class) (n : string) (ft ft' : pyclass)
         (edt edt' : option doc_type) (sub sub' : option field_cls)
         (value : pyval),
    add_field n ft edt sub cls = (Ok (), cls') ->
    add_field n ft' edt' sub' cls' = (Raise (ValueError FieldExists), cls')
    /\ _add_implied_field n value cls' = (Raise AssertionError, cls').
Proof.
  intros cls cls' n ft ft' edt edt' sub sub' value Hadd.
  destruct (add_field_ok _ _ _ _ _ _ Hadd) as (_ & t & fld & -> & _).
  assert (Hin : in_fields (extended cls n fld) n = true).
  { apply in_fields_true. simpl. rewrite lookup_insert_eq. eauto. }
  unfold add_field, _add_implied_field. rewrite Hin. split; reflexivity.
Qed.

(** X2. [set_field] only ever grows the schema: every field descriptor of
    the class is still there, unchanged; the declaration order is extended by
    at most the name that was set, at its end; and a schema whose dict and
    declaration order agree still has them agree. *)
Theorem schema_only_grows :
  forall (s s' : Sample) (n : string) (value : pyval) (create : bool)
         (r : result unit),
    set_field n value create s = (r, s') ->
    (forall k fld, _fields (klass s) !! k = Some fld ->
                   _fields (klass s') !! k = Some fld)
    /\ (_fields_ordered (klass s') = _fields_ordered (klass s)
        \/ (_fields (klass s) !! n = None
            /\ _fields_ordered (klass s')
               = (_fields_ordered (klass s) ++ [n])%list))
    /\ attrs (klass s') = attrs (klass s)
    /\ (consistent (klass s) -> consistent (klass s')).
Proof.
  intros s s' n value create r Hrun.
  destruct (set_field_outcome s s' n value create r Hrun)
    as ([Hk|(fld & Hnew & _ & _ & Hk)] & _); rewrite Hk.
  - auto.
  - split; [|split; [|split]].
    + intros k fld' Hf. simpl. rewrite lookup_insert_ne; [exact Hf|].
      intros <-. rewrite Hnew in Hf. discriminate.
    + right. split; [exact Hnew|reflexivity].
    + reflexivity.
    + intros Hc. apply consistent_extended; assumption.
Qed.

(** X3. Private names: [set_field] refuses every name with a leading
    underscore, whatever [create] is and whether or not the class declares
    it, and changes nothing; so a schema of public names stays one under
    [set_field].  [add_field] itself makes no such check. *)
Theorem private_names_refused :
  (forall (s : Sample) (n : string) (value : pyval) (create : bool),
      String.prefix "_" n = true ->
      set_field n value create s = (Raise (ValueError InvalidFieldName), s))
  /\ (forall (s s' : Sample) (n : string) (value : pyval) (create : bool)
             (r : result unit),
        set_field n value create s = (r, s') ->
        public (klass s) -> public (klass s'))
  /\ (forall (cls : doc_class) (n : string) (t : field_cls),
        _fields cls !! n = None ->
        exists fld,
          add_field n (FieldClass t) None None cls = (Ok (), extended cls n fld)).
Proof.
  split; [|split].
  - intros s n value create Hp. unfold set_field. rewrite Hp. reflexivity.
  - intros s s' n value create r Hrun Hpub k Hk.
    destruct (set_field_outcome s s' n value create r Hrun)
      as ([Hc|(fld & Hnew & -> & _ & Hc)] & _); rewrite Hc in Hk.
    + apply Hpub, Hk.
    + simpl in Hk. destruct (decide (k = n)) as [->|Hne].
      * destruct (String.prefix "_" n) eqn:Hp; [|reflexivity].
        unfold set_field in Hrun. rewrite Hp in Hrun.
        injection Hrun as _ <-.
        assert (Hn : _fields (klass s) !! n = Some fld).
        { rewrite Hc. simpl. apply lookup_insert_eq. }
        rewrite Hnew in Hn. discriminate.
      * rewrite lookup_insert_ne in Hk by congruence. apply Hpub, Hk.
  - intros cls n t Hnew. unfold add_field.
    rewrite (proj2 (in_fields_false _ _) Hnew). simpl.
    destruct t; eexists; reflexivity.
Qed.

End SchemaGrowth.

(** ** Writes, reads and saves *)

Section WritesAndReads.
Context {mongo : Mongo}.
Import Views.

Lemma add_implied_uninferable (cls : doc_class) (n : string) (value : pyval)
    (e : exn) :
  in_fields cls n = false ->
  Spec.infer_kind value = Raise e ->
  _add_implied_field n value cls = (Raise TypeError, cls).
Proof.
  intros Hin. rewrite infer_kind_by_type.
  unfold _add_implied_field. rewrite Hin.
  destruct value; try discriminate; reflexivity.
Qed.

(** X4. An attribute that was assigned directly stands in the way of a
    field: on a public name that the sample does not have, [sample.n = v]
    is accepted with one warning, and from then on [set_field] refuses that
    name as a reserved word, with and without [create], and changes
    nothing. *)
Theorem direct_attribute_blocks_field :
  forall (s : Sample) (n : string) (v v' : pyval) (create : bool),
    String.prefix "_" n = false ->
    hasattr s n = Ok false ->
    exists s1,
      __setattr__ n v s = (Ok (), s1)
      /\ warnings s1 = S (warnings s)
      /\ klass s1 = klass s
      /\ _data (self s1) = _data (self s)
      /\ __dict__ (self s1) !! n = Some v
      /\ set_field n v' create s1 = (Raise (ValueError ReservedWord), s1).
Proof.
  intros s n v v' create Hp Hattr.
  destruct (hasattr_absent s n Hattr) as (Hin & Hprop & Hdict & Hcattr).
  assert (Hcls : hasattr_cls (klass s) n = false).
  { unfold hasattr_cls. rewrite Hin, Hprop.
    rewrite bool_decide_eq_false_2 by exact Hcattr. reflexivity. }
  pose proof (proj1 (in_fields_false _ _) Hin) as Hf.
  eexists. split.
  { unfold __setattr__, has_non_field. rewrite Hp, Hattr, Hcls. simpl.
    unfold bind, warn, super_setattr. simpl. rewrite Hf, Hprop. reflexivity. }
  simpl. split; [reflexivity|]. split; [reflexivity|]. split; [reflexivity|].
  split; [apply lookup_insert_eq|].
  unfold set_field, has_non_field. rewrite Hp.
  rewrite (hasattr_plain _ n Hprop). simpl.
  rewrite lookup_insert_eq, Hin. reflexivity.
Qed.

(** X5. What is set can be read back: after [set_field] returned, the
    sample yields under the name the value that was set (the field's default
    in place of [None]), and yields under every other name what it yielded
    before, but for the property [filename] after a write of [filepath],
    which follows the new path. *)
Theorem set_then_get :
  forall (s s' : Sample) (n : string) (value : pyval) (create : bool),
    set_field n value create s = (Ok (), s') ->
    (is_none value = false -> __getitem__ s' n = Ok value)
    /\ (exists fld, _fields (klass s') !! n = Some fld
                    /\ __getitem__ s' n = Ok (stored fld value))
    /\ (forall k, k <> n -> ~ (k = "filename" /\ n = "filepath") ->
                  __getitem__ s' k = __getitem__ s k)
    /\ (forall p, n = "filepath" -> value = VStr p ->
                  _fields (klass s') !! "filename" = None ->
                  __getitem__ s' "filename" = Ok (VStr (basename p))).
Proof.
  intros s s' n value create Hrun.
  destruct (set_field_outcome s s' n value create (Ok ()) Hrun)
    as (Hk & Hw & Hd & Hdb & Hp & fld & Hf & Hdata & Hsaves).
  assert (Hget : __getitem__ s' n = Ok (stored fld value)).
  { unfold __getitem__, hasattr, getattribute.
    rewrite (in_fields_lookup _ _ _ Hf).
    rewrite Hdata, lookup_insert_eq. reflexivity. }
  split; [|split; [|split]].
  - intros Hnone. rewrite Hget. unfold stored. rewrite Hnone. reflexivity.
  - eauto.
  - intros k Hne Hfile.
    assert (Hfields : _fields (klass s') !! k = _fields (klass s) !! k).
    { destruct Hk as [->|(fld' & _ & _ & _ & ->)]; [reflexivity|].
      simpl. apply lookup_insert_ne. congruence. }
    assert (Hattrs : attrs (klass s') = attrs (klass s)).
    { destruct Hk as [->|(fld' & _ & _ & _ & ->)]; reflexivity. }
    assert (Hprop : get_property s' k = get_property s k).
    { unfold get_property. destruct (String.eqb_spec k "filename") as [->|_];
        [|reflexivity].
      unfold filename. rewrite Hdata, lookup_insert_ne; [reflexivity|].
      intros ->. apply Hfile. auto. }
    assert (Hattr : getattribute s' k = getattribute s k).
    { unfold getattribute, in_fields.
      rewrite Hfields, Hattrs, Hd, Hprop, Hdata.
      rewrite lookup_insert_ne by congruence. reflexivity. }
    unfold __getitem__, hasattr. rewrite Hattr. reflexivity.
  - intros p -> -> Hnone. apply in_fields_false in Hnone.
    unfold __getitem__, hasattr, getattribute. rewrite Hnone.
    change (is_property "filename") with true.
    change (get_property s' "filename") with (filename s').
    unfold filename. rewrite Hdata, lookup_insert_eq. reflexivity.
Qed.

(** X6. A value of a type without a field kind cannot open a field: for a
    public name that the sample does not have, [set_field] with [create]
    raises [TypeError] and changes neither sample nor class.  [None] and
    every float are such values; on a declared field [None] is accepted. *)
Theorem uninferable_value_creates_nothing :
  (forall (s : Sample) (n : string) (value : pyval) (e : exn),
      String.prefix "_" n = false ->
      hasattr s n = Ok false ->
      Spec.infer_kind value = Raise e ->
      set_field n value true s = (Raise TypeError, s))
  /\ Spec.infer_kind VNone = Raise TypeError
  /\ (forall f : float, Spec.infer_kind (VFloat f) = Raise TypeError)
  /\ (forall shape data : list Z,
        Spec.infer_kind (VArray shape data) = Raise TypeError).
Proof.
  split; [|repeat split].
  intros s n value e Hp Hattr Hkind.
  destruct (hasattr_absent s n Hattr) as (Hin & _).
  unfold set_field, has_non_field. rewrite Hp, Hattr, Hin. simpl.
  unfold bind, on_class.
  rewrite (add_implied_uninferable (klass s) n value e Hin Hkind).
  rewrite with_klass_same. reflexivity.
Qed.

End WritesAndReads.

Section SavesAndFailures.
Context {mongo : Mongo}.
Import Views.

(** X7. The autosave: [set_field] saves exactly once when it returns on a
    sample that is in the database and the field is not [id], and never
    otherwise: not on a sample outside the database, not for [id], not when
    it raises.  It never changes whether the sample is in the database. *)
Theorem autosave_once :
  forall (s s' : Sample) (n : string) (value : pyval) (create : bool)
         (r : result unit),
    set_field n value create s = (r, s') ->
    _in_db (self s') = _in_db (self s)
    /\ saves (self s')
       = match r with
         | Ok _ =>
             if _in_db (self s) && negb (String.eqb n "id")
             then S (saves (self s)) else saves (self s)
         | Raise _ => saves (self s)
         end.
Proof.
  intros s s' n value create r Hrun.
  destruct (set_field_outcome s s' n value create r Hrun)
    as (_ & _ & _ & Hdb & Hr).
  split; [exact Hdb|].
  destruct r as [[]|e]; [|rewrite Hr; reflexivity].
  destruct Hr as (Hp & fld & _ & _ & ->).
  assert (Hid : bool_decide (n ∈ ["_cls"; "id"]) = String.eqb n "id").
  { destruct (String.eqb_spec n "id") as [->|Hne].
    - apply bool_decide_eq_true. set_solver.
    - apply bool_decide_eq_false. intros Hin.
      apply elem_of_cons in Hin as [->|Hin]; [discriminate Hp|].
      apply list_elem_of_singleton in Hin. contradiction. }
  rewrite Hid. reflexivity.
Qed.


(** X9. Creation and write are two steps: when [set_field] with [create]
    opens a field for a public name that the sample does not have, and the
    validation then refuses the value, the write raises [ValidationError] and
    no value is stored, but the class keeps the new field, of the inferred
    kind, at the end of its schema. *)
Theorem refused_value_leaves_field :
  forall (s : Sample) (n : string) (value : pyval) (k : Spec.kind),
    String.prefix "_" n = false ->
    hasattr s n = Ok false ->
    Spec.infer_kind value = Ok k ->
    (forall fld, ftype fld = Spec.field_class_of k -> validate fld value = false) ->
    exists fld,
      set_field n value true s
      = (Raise ValidationError, with_klass (extended (klass s) n fld) s)
      /\ ftype fld = Spec.field_class_of k
      /\ _fields (klass s) !! n = None.
Proof.
  intros s n value k Hp Hattr Hkind Hrefused.
  destruct (hasattr_absent s n Hattr) as (Hin & _).
  assert (Hnone : is_none value = false).
  { destruct value; try reflexivity. discriminate Hkind. }
  assert (Hadd : exists fld,
             _add_implied_field n value (klass s)
             = (Ok (), extended (klass s) n fld)
             /\ ftype fld = Spec.field_class_of k).
  { rewrite infer_kind_by_type in Hkind.
    unfold _add_implied_field, add_field. rewrite Hin.
    destruct value; try discriminate; injection Hkind as <-; simpl;
      eexists; (split; [reflexivity|]); reflexivity. }
  destruct Hadd as (fld & Hadd & Hty). exists fld.
  split; [|split; [exact Hty|apply in_fields_false, Hin]].
  unfold set_field, has_non_field. rewrite Hp, Hattr, Hin. simpl.
  unfold bind at 1. unfold on_class. rewrite Hadd.
  assert (Hf : _fields (klass (with_klass (extended (klass s) n fld) s)) !! n
               = Some fld) by (simpl; apply lookup_insert_eq).
  rewrite (setattr_declared _ n fld value Hp Hf).
  rewrite Hnone, (Hrefused fld Hty). reflexivity.
Qed.

End SavesAndFailures.

(** ** The listing of the schema *)

Section GetFields.
Context {hierarchy : Views.Hierarchy}.
Import Views.
Local Open Scope list_scope.

Lemma od_set_fresh (k : string) (v : Field) (d : list (string * Field)) :
  k ∉ map fst d -> od_set k v d = d ++ [(k, v)].
Proof.
  induction d as [|[k' v'] d IH]; simpl; intros Hk; [reflexivity|].
  rewrite not_elem_of_cons in Hk. destruct Hk as [Hne Hk].
  destruct (String.eqb_spec k k') as [->|_]; [contradiction|].
  rewrite (IH Hk). reflexivity.
Qed.

Lemma listing_cons (cls : doc_class) (sel : Field -> bool) (n : string)
    (names : list string) :
  listing cls sel (n :: names)
  = match _fields cls !! n with
    | Some fld =>
        if sel fld then (n, fld) :: listing cls sel names
        else listing cls sel names
    | None => listing cls sel names
    end.
Proof.
  unfold listing. simpl. destruct (_fields cls !! n) as [fld|]; [|reflexivity].
  destruct (sel fld); reflexivity.
Qed.

(** The loop of [get_fields] over distinct, declared names. *)
Lemma get_fields_loop_listing (cls : doc_class) (field_type : option pyclass)
    (sel : Field -> bool) (names : list string) (d : list (string * Field)) :
  NoDup names ->
  (forall n, n ∈ names -> n ∉ map fst d) ->
  (forall n, n ∈ names ->
     exists fld, _fields cls !! n = Some fld
                 /\ selected field_type fld = Ok (sel fld)) ->
  get_fields_loop cls field_type names d = Ok (d ++ listing cls sel names).
Proof.
  revert d. induction names as [|n names IH]; intros d Hnodup Hfresh Hall.
  - simpl. rewrite app_nil_r. reflexivity.
  - apply NoDup_cons in Hnodup as [Hn Hnodup].
    destruct (Hall n) as (fld & Hf & Hsel); [left|].
    unfold listing. simpl. rewrite Hf, Hsel.
    fold (listing cls sel names).
    destruct (sel fld).
    + rewrite od_set_fresh by (apply Hfresh; left).
      rewrite IH; [rewrite <- app_assoc; reflexivity|exact Hnodup| |].
      * intros k Hk. rewrite map_app, elem_of_app. simpl.
        rewrite list_elem_of_singleton. intros [Hd| ->].
        -- apply (Hfresh k); [right; exact Hk|exact Hd].
        -- contradiction.
      * intros k Hk. apply Hall. right. exact Hk.
    + apply IH; [exact Hnodup| |].
      * intros k Hk. apply Hfresh. right. exact Hk.
      * intros k Hk. apply Hall. right. exact Hk.
Qed.

Lemma listing_elem (cls : doc_class) (sel : Field -> bool) (n : string)
    (fld : Field) :
  consistent cls ->
  (n, fld) ∈ listing cls sel (_fields_ordered cls)
  <-> _fields cls !! n = Some fld /\ sel fld = true.
Proof.
  intros [_ Hsame]. unfold listing. rewrite list_elem_of_omap. split.
  - intros (x & _ & Hx). destruct (_fields cls !! x) as [f|] eqn:Hf;
      [|discriminate].
    destruct (sel f) eqn:Hs; [|discriminate]. injection Hx as -> ->. auto.
  - intros [Hf Hs]. exists n. split; [apply Hsame; eauto|].
    rewrite Hf, Hs. reflexivity.
Qed.

Lemma get_fields_listing (cls : doc_class) (field_type : option pyclass)
    (sel : Field -> bool) :
  consistent cls ->
  (forall name, field_type <> Some (OtherClass name)) ->
  (forall n fld, _fields cls !! n = Some fld ->
                 selected field_type fld = Ok (sel fld)) ->
  get_fields cls field_type = Ok (listing cls sel (_fields_ordered cls)).
Proof.
  intros [Hnodup Hsame] Hclass Hsel.
  assert (Hloop : get_fields_loop cls field_type (_fields_ordered cls) []
                  = Ok (listing cls sel (_fields_ordered cls))).
  { rewrite (get_fields_loop_listing cls field_type sel _ [] Hnodup);
      [reflexivity| |].
    - intros n _ Hn. inversion Hn.
    - intros n Hn. apply Hsame in Hn as [fld Hf]. eauto. }
  unfold get_fields. destruct field_type as [[| |name]|]; try exact Hloop.
  destruct (Hclass name eq_refl).
Qed.

(** X10. On a consistent schema, [get_fields()] lists every field of the
    class once, under its name and in declaration order; and after
    [add_field] created a field, the listing is the former one followed by
    the new field. *)
Theorem get_fields_lists_schema :
  forall cls : doc_class,
    consistent cls ->
    exists l,
      get_fields cls None = Ok l
      /\ map fst l = _fields_ordered cls
      /\ (forall n fld, (n, fld) ∈ l <-> _fields cls !! n = Some fld)
      /\ (forall (cls' : doc_class) (n : string) (ft : pyclass)
                 (edt : option doc_type) (sub : option field_cls),
            add_field n ft edt sub cls = (Ok (), cls') ->
            exists fld,
              _fields cls' !! n = Some fld
              /\ get_fields cls' None = Ok (l ++ [(n, fld)])).
Proof.
  intros cls Hc. pose proof Hc as [Hnodup Hsame].
  exists (listing cls (fun _ => true) (_fields_ordered cls)).
  assert (Hall : forall c, consistent c ->
             get_fields c None
             = Ok (listing c (fun _ => true) (_fields_ordered c))).
  { intros c Hcc. apply get_fields_listing; [exact Hcc|discriminate|].
    intros n fld _. reflexivity. }
  split; [apply Hall, Hc|]. split; [|split].
  - clear Hnodup Hall Hc.
    assert (Hin : forall n, n ∈ _fields_ordered cls ->
                            is_Some (_fields cls !! n)) by (intros; apply Hsame; auto).
    clear Hsame.
    induction (_fields_ordered cls) as [|n names IH]; [reflexivity|].
    rewrite listing_cons.
    assert (Hn : is_Some (_fields cls !! n)) by (apply Hin; left).
    destruct Hn as [fld Hf]. rewrite Hf. simpl.
    rewrite IH; [reflexivity|]. intros k Hk. apply Hin. right. exact Hk.
  - intros n fld. rewrite (listing_elem cls _ n fld Hc). tauto.
  - intros cls' n ft edt sub Hadd.
    destruct (add_field_ok _ _ _ _ _ _ Hadd) as (Hnew & t & fld & -> & _).
    exists fld. split; [simpl; apply lookup_insert_eq|].
    rewrite (Hall _ (consistent_extended cls n fld Hc Hnew)).
    f_equal. unfold listing. simpl. rewrite omap_app. simpl.
    rewrite lookup_insert_eq. f_equal.
    apply list_omap_ext. apply Forall2_same_length_lookup. split; [reflexivity|].
    intros i x y Hx Hy. rewrite Hx in Hy. injection Hy as <-.
    rewrite lookup_insert_ne; [reflexivity|].
    intros <-. apply list_elem_of_lookup_2 in Hx. apply Hsame in Hx.
    rewrite Hnew in Hx. destruct Hx as [? [=]].
Qed.

(** X11. [get_fields(field_type)] on a consistent schema: for a field class
    it lists exactly the fields of that class, and for a document class
    exactly the embedded-document fields whose document type is a subclass of
    it (provided every embedded field has a document type), each time in
    declaration order; for a class of neither sort it raises [TypeError]. *)
Theorem get_fields_by_kind :
  forall cls : doc_class,
    consistent cls ->
    (forall t : field_cls,
        exists l,
          get_fields cls (Some (FieldClass t)) = Ok l
          /\ sublist (map fst l) (_fields_ordered cls)
          /\ (forall n fld, (n, fld) ∈ l
                <-> _fields cls !! n = Some fld /\ ftype fld = t))
    /\ (forall d : doc_type,
          (forall n fld, _fields cls !! n = Some fld ->
                         ftype fld = EmbeddedDocumentField ->
                         is_Some (document_type fld)) ->
          exists l,
            get_fields cls (Some (DocClass d)) = Ok l
            /\ sublist (map fst l) (_fields_ordered cls)
            /\ (forall n fld, (n, fld) ∈ l
                  <-> _fields cls !! n = Some fld
                      /\ ftype fld = EmbeddedDocumentField
                      /\ exists t, document_type fld = Some t
                                   /\ issubclass t d = true))
    /\ (forall name : string,
          get_fields cls (Some (OtherClass name)) = Raise TypeError).
Proof.
  intros cls Hc.
  assert (Hsub : forall sel,
             sublist (map fst (listing cls sel (_fields_ordered cls)))
               (_fields_ordered cls)).
  { intros sel.
    induction (_fields_ordered cls) as [|n names IH]; [constructor|].
    rewrite listing_cons. destruct (_fields cls !! n) as [fld|].
    - destruct (sel fld); simpl; [apply sublist_skip|apply sublist_cons];
        exact IH.
    - apply sublist_cons. exact IH. }
  split; [|split].
  - intros t. exists (listing cls (fun fld => field_cls_eqb (ftype fld) t)
                        (_fields_ordered cls)).
    split; [|split; [apply Hsub|]].
    + apply get_fields_listing; [exact Hc|discriminate|reflexivity].
    + intros n fld. rewrite (listing_elem cls _ n fld Hc).
      destruct (ftype fld), t; simpl; split; intros [? ?]; split;
        auto; discriminate.
  - intros d Htyped. exists (listing cls (embeds_below d) (_fields_ordered cls)).
    split; [|split; [apply Hsub|]].
    + apply get_fields_listing; [exact Hc|discriminate|].
      intros n fld Hf. unfold selected, embeds_below.
      pose proof (Htyped n fld Hf) as Hty.
      destruct (ftype fld); try reflexivity.
      destruct (Hty eq_refl) as [t ->]. reflexivity.
    + intros n fld. rewrite (listing_elem cls _ n fld Hc).
      unfold embeds_below. split.
      * intros [Hf Hsel]. split; [exact Hf|].
        destruct (ftype fld); try discriminate.
        destruct (document_type fld) as [t|]; [|discriminate]. eauto.
      * intros (Hf & -> & t & -> & Hsubc). auto.
  - reflexivity.
Qed.

End GetFields.

(** ** The file name of a sample *)

Section FileName.
Context {mongo : Mongo}.
Import Views.

Lemma has_slash_cons (c : Ascii.ascii) (p : string) :
  has_slash (String c p) = Ascii.eqb sep c || has_slash p.
Proof. reflexivity. Qed.

Lemma has_slash_app (p q : string) :
  has_slash (p ++ q)%string = has_slash p || has_slash q.
Proof.
  induction p as [|c p IH]; [reflexivity|].
  change (has_slash (String c (p ++ q)%string)
          = has_slash (String c p) || has_slash q).
  rewrite !has_slash_cons, IH. apply orb_assoc.
Qed.

Lemma basename_cons (c : Ascii.ascii) (rest : string) :
  basename (String c rest)
  = if has_slash rest then basename rest
    else if Ascii.eqb c sep then rest else String c rest.
Proof. reflexivity. Qed.

Lemma basename_no_slash (p : string) : has_slash (basename p) = false.
Proof.
  induction p as [|c rest IH]; [reflexivity|].
  rewrite basename_cons. destruct (has_slash rest) eqn:Hrest; [exact IH|].
  destruct (Ascii.eqb c sep) eqn:Hc; [exact Hrest|].
  rewrite has_slash_cons, Hrest, Ascii.eqb_sym, Hc. reflexivity.
Qed.

Lemma basename_suffix (p : string) :
  exists dir, p = (dir ++ basename p)%string.
Proof.
  induction p as [|c rest [dir IH]]; [exists EmptyString; reflexivity|].
  rewrite basename_cons. destruct (has_slash rest).
  - exists (String c dir).
    change (String c rest = String c (dir ++ basename rest)%string).
    rewrite <- IH. reflexivity.
  - destruct (Ascii.eqb_spec c sep) as [->|_].
    + exists (String sep EmptyString). reflexivity.
    + exists EmptyString. reflexivity.
Qed.

Lemma basename_join (dir name : string) :
  has_slash name = false ->
  basename (dir ++ String sep name)%string = name.
Proof.
  intros Hname. induction dir as [|c dir IH].
  - change (basename (String sep name) = name).
    rewrite basename_cons, Hname, Ascii.eqb_refl. reflexivity.
  - change (basename (String c (dir ++ String sep name)%string) = name).
    rewrite basename_cons, has_slash_app, has_slash_cons.
    rewrite Ascii.eqb_refl, orb_true_r. exact IH.
Qed.

(** X12. [filename] is what follows the last slash of [filepath]: it has no
    slash and [filepath] ends with it; after [filepath] was set to a
    directory, a slash and a name without slashes, it is that name; a path
    without a slash is its own file name; and without a [filepath] the
    property raises [TypeError]. *)
Theorem filename_is_last_component :
  (forall (s : Sample) (p : string),
      _data (self s) !! "filepath" = Some (VStr p) ->
      exists dir name,
        filename s = Ok (VStr name)
        /\ has_slash name = false
        /\ p = (dir ++ name)%string
        /\ (has_slash p = false -> name = p))
  /\ (forall (s s' : Sample) (dir name : string) (create : bool),
        has_slash name = false ->
        set_field "filepath" (VStr (dir ++ String sep name)) create s
        = (Ok (), s') ->
        filename s' = Ok (VStr name))
  /\ (forall s : Sample,
        default VNone (_data (self s) !! "filepath") = VNone ->
        filename s = Raise TypeError).
Proof.
  split; [|split].
  - intros s p Hp. destruct (basename_suffix p) as [dir Hdir].
    exists dir, (basename p). unfold filename. rewrite Hp. simpl.
    split; [reflexivity|]. split; [apply basename_no_slash|].
    split; [exact Hdir|].
    intros Hfree. destruct p as [|c rest]; [reflexivity|].
    rewrite basename_cons. rewrite has_slash_cons in Hfree.
    apply orb_false_iff in Hfree as [Hc Hrest]. rewrite Hrest.
    rewrite Ascii.eqb_sym, Hc. reflexivity.
  - intros s s' dir name create Hname Hset.
    destruct (set_field_outcome s s' _ _ create (Ok ()) Hset)
      as (_ & _ & _ & _ & _ & fld & _ & Hdata & _).
    unfold filename. rewrite Hdata, lookup_insert_eq. simpl.
    rewrite (basename_join dir name Hname). reflexivity.
  - intros s Hnone. unfold filename. rewrite Hnone. reflexivity.
Qed.

End FileName.

(** ** Images are read when needed, and once *)

Section ImageReads.
Context {mongo : Mongo} {runtime : Runtime} {eta : Eta}.
Import Unlabeled.

(** X13. The image of a record is decoded once: after [get_image] returned
    an image on a tuple parser, the parser holds it, and further calls of
    [get_image], and of [get_label] where it needs the image, give the same
    answers with any other image reader in place, that is, without reading
    again. *)
Theorem image_decoded_once :
  forall (c : tuple_class) (s cache img : pyval) (p' : parser)
         (read asarray : pyval -> result pyval),
    get_image (Tuple c s cache) = (Ok img, p') ->
    is_none img = false ->
    p' = Tuple c s img
    /\ @get_image runtime (with_image_reader read asarray eta) p' = (Ok img, p')
    /\ @get_label runtime (with_image_reader read asarray eta) p'
       = @get_label runtime eta p'.
Proof.
  intros c s cache img p' read asarray Hget Hnone.
  assert (Hp : p' = Tuple c s img).
  { simpl in Hget. destruct (is_none cache) eqn:Hc.
    - destruct (_get_image (Tuple c s cache)) as [i|e]; [|discriminate].
      injection Hget as <- <-. reflexivity.
    - injection Hget as <- <-. reflexivity. }
  subst p'. split; [reflexivity|]. split.
  - simpl. rewrite Hnone. reflexivity.
  - destruct c as [| |cfg|]; try reflexivity.
    simpl. destruct (_ ← current_sample _; getitem _ (VInt 1)); [|reflexivity].
    unfold bind, lift, ret. destruct (negb (normalized cfg)); [|reflexivity].
    simpl. rewrite Hnone. reflexivity.
Qed.

Lemma get_image_metadata_reader (p : parser)
    (read asarray : pyval -> result pyval) :
  @get_image_metadata (with_image_reader read asarray eta) p
  = @get_image_metadata eta p.
Proof. destruct p as [[| |]|]; reflexivity. Qed.

Lemma get_image_metadata_builder (p : parser) (build : pyval -> result pyval) :
  computes_metadata p = false ->
  @get_image_metadata (with_metadata_builder build eta) p
  = @get_image_metadata eta p.
Proof.
  intros Hcomputes. destruct p as [[| |]|]; try reflexivity;
    simpl in Hcomputes; subst; simpl;
    destruct (current_sample _) as [cur|]; try reflexivity; simpl;
    destruct (getattr cur "metadata") as [md|]; try reflexivity; simpl;
    rewrite andb_false_r; reflexivity.
Qed.

Lemma get_label_reader (p : parser) (read asarray : pyval -> result pyval) :
  needs_image p = false ->
  @get_label runtime (with_image_reader read asarray eta) p
  = @get_label runtime eta p
  /\ snd (@get_label runtime eta p) = p.
Proof.
  intros Hneeds. destruct p as [[| |[]]|[| |cfg|]]; try (split; reflexivity).
  simpl in Hneeds. apply negb_false_iff in Hneeds.
  simpl. rewrite Hneeds.
  destruct (_ ← current_sample _; getitem _ (VInt 1)); split; reflexivity.
Qed.

Lemma get_label_builder (e : Eta) (p : parser) (build : pyval -> result pyval) :
  @get_label runtime (with_metadata_builder build e) p = @get_label runtime e p.
Proof. destruct p as [[| |[]]|[| | |]]; reflexivity. Qed.

(** X14. Ingestion does not open the image files: unless the parser is the
    detection parser with absolute boxes, or a parser of FiftyOne samples
    that computes the metadata, the sample that either entry point builds
    from a record is the same with any image reader and any metadata builder
    in place, and the parser is left positioned on the record with its state
    otherwise untouched. *)
Theorem ingestion_reads_no_image :
  forall (p : parser) (label_field : string) (tags sample : pyval)
         (read asarray build : pyval -> result pyval),
    reads_images p = false ->
    let blind := with_metadata_builder build (with_image_reader read asarray eta) in
    @Ingest.parse_sample mongo runtime blind label_field tags sample p
    = @Ingest.parse_sample mongo runtime eta label_field tags sample p
    /\ @Unlabeled.parse_sample runtime blind tags sample p
       = @Unlabeled.parse_sample runtime eta tags sample p
    /\ snd (Ingest.parse_sample label_field tags sample p)
       = with_sample sample p
    /\ snd (Unlabeled.parse_sample tags sample p) = with_sample sample p.
Proof.
  intros p label_field tags sample read asarray build Hreads blind.
  apply orb_false_iff in Hreads as [Hneeds Hcomputes].
  set (q := with_sample sample p).
  assert (Hq : needs_image q = false) by (destruct p; exact Hneeds).
  assert (Hc : computes_metadata q = false) by (destruct p; exact Hcomputes).
  assert (Hpath : snd (get_image_path q) = q) by (destruct q as [[| |]|]; reflexivity).
  assert (Hmeta : forall e : Eta,
             snd (if has_image_metadata q then @get_image_metadata e q
                  else (Ok VNone, q)) = q).
  { intros e. destruct q as [[| |]|]; reflexivity. }
  destruct (get_label_reader q read asarray Hq) as [Hlabel Hstate].
  assert (Hblind : @get_image_metadata blind q = @get_image_metadata eta q).
  { unfold blind.
    rewrite <- (get_image_metadata_builder q build Hc).
    destruct q as [[| |]|]; reflexivity. }
  unfold Ingest.parse_sample, Unlabeled.parse_sample, bind. fold q.
  destruct (get_image_path q) as [[path|e] q1] eqn:Hp; simpl in Hpath;
    subst q1; [|repeat split].
  rewrite Hblind.
  pose proof (Hmeta eta) as Hm.
  destruct (if has_image_metadata q then get_image_metadata q else (Ok VNone, q))
    as [[md|e] q2]; simpl in Hm; subst q2; [|repeat split].
  unfold blind. rewrite get_label_builder, Hlabel.
  destruct (@get_label runtime eta q) as [[label|e] q3]; simpl in Hstate;
    subst q3; [|repeat split].
  repeat split; destruct label; reflexivity.
Qed.

End ImageReads.

(** ** The two entry points and the kinds of parsers *)

Section EntryPoints.
Context {store : Store} {mongo : Mongo} {runtime : Runtime} {eta : Eta}.
Import Unlabeled.

(** X15. Each entry point turns away the parsers of the other kind before
    it looks at any record: [add_labeled_images] raises for an unlabeled
    parser and [add_images] for a labeled one, whatever the records and
    options, and dataset and parser stay as they were.  Every parser is
    turned away by one of the two and taken by the other. *)
Theorem entry_points_split_parsers :
  forall (p : parser) (ds : dataset) (samples : source) (label_field : string)
         (tags : pyval) (expand_schema : bool),
    (is_unlabeled p = true ->
     add_labeled_images samples label_field tags expand_schema (ds, p)
     = (Raise (ValueError MustBeSubclass), (ds, p))
     /\ add_images samples tags (ds, p)
        = add_samples (Unlabeled.parse_sample tags) (records samples) false
            (num_samples_of samples) (ds, p))
    /\ (is_unlabeled p = false ->
        add_images samples tags (ds, p)
        = (Raise (ValueError MustBeSubclass), (ds, p))
        /\ add_labeled_images samples label_field tags false (ds, p)
           = add_samples (Ingest.parse_sample label_field tags)
               (records samples) false (num_samples_of samples) (ds, p)).
Proof.
  intros p ds samples label_field tags expand_schema.
  assert (Hpath : has_image_path p = true) by (destruct p as [[| |]|]; reflexivity).
  split; intros Hkind; unfold add_labeled_images, add_images, is_labeled;
    rewrite Hpath, Hkind; simpl; split; reflexivity.
Qed.

End EntryPoints.

(** ** Positioning on [None], and the class of a label *)

Section NoneAndClasses.
Context {runtime : Runtime} {eta : Eta}.
Import Protocol.

(** X16. A record that is [None] is no record: positioning a parser on
    [None] is the same as clearing it, so that every accessor that reads the
    current record raises the no-current-sample [ValueError]. *)
Theorem none_record_is_no_record :
  forall p : parser,
    with_sample VNone p = clear_sample p
    /\ forall acc : accessor,
         reads_current_sample acc p = true ->
         call acc (with_sample VNone p)
         = (Raise (ValueError NoCurrentSample), clear_sample p).
Proof.
  intros p. split; [destruct p; reflexivity|].
  intros acc Hreads.
  destruct p as [[| |[f|[|kv d]]]|c]; destruct acc; simpl in Hreads;
    try discriminate; try reflexivity.
  - destruct kv; reflexivity.
  - destruct c; reflexivity.
Qed.

(** X17. [label_cls] announces the class of the labels: for the
    classification parser, the detection parser and the multi-task parser
    without expansion, whatever [get_label] returns is [None] or a document
    of the class [label_cls], which an embedded-document field of that class
    validates. *)
Theorem label_cls_is_class_of_labels :
  forall (c : tuple_class) (s cache v : pyval) (p' : parser) (cls : doc_type),
    c <> LabeledImageTupleSampleParser ->
    label_cls (Tuple c s cache) = Ok (Some cls) ->
    get_label (Tuple c s cache) = (Ok v, p') ->
    v = VNone
    \/ ((exists fields, v = VDoc cls fields)
        /\ forall fld, ftype fld = EmbeddedDocumentField ->
                       document_type fld = Some cls ->
                       kind_validate fld v = true).
Proof.
  intros c s cache v p' cls Hbase Hcls Hget.
  assert (Hdoc : forall fields, v = VDoc cls fields ->
            v = VNone
            \/ ((exists fields, v = VDoc cls fields)
                /\ forall fld, ftype fld = EmbeddedDocumentField ->
                               document_type fld = Some cls ->
                               kind_validate fld v = true)).
  { intros fields ->. right. split; [eauto|].
    intros fld Hty Hdt. unfold kind_validate. rewrite Hty, Hdt.
    destruct cls; reflexivity. }
  destruct c as [|classes|cfg|cfg]; [contradiction| | |].
  - injection Hcls as <-. simpl in Hget.
    destruct (current_sample _) as [cs|]; simpl in Hget; [|discriminate].
    destruct (getitem cs (VInt 1)) as [target|]; simpl in Hget; [|discriminate].
    unfold classification_parse_label in Hget.
    destruct (is_none target); injection Hget as <- _; [left; reflexivity|].
    eapply Hdoc. reflexivity.
  - injection Hcls as <-. unfold get_label in Hget.
    destruct (_ ← current_sample _; getitem _ (VInt 1)) as [target|];
      [|discriminate].
    unfold bind, lift in Hget.
    destruct ((if negb (normalized cfg) then _current_image else ret VNone) _)
      as [[img|] q]; [|discriminate].
    injection Hget as Hlabel _. unfold detection_parse_label in Hlabel.
    destruct (is_none target); [injection Hlabel as <-; left; reflexivity|].
    destruct (if is_str target then _ else _) as [t|]; simpl in Hlabel;
      [|discriminate].
    destruct (iter t) as [objs|]; simpl in Hlabel; [|discriminate].
    destruct (for_each _ objs) as [dets|]; simpl in Hlabel; [|discriminate].
    injection Hlabel as <-. eapply Hdoc. reflexivity.
  - simpl in Hcls. destruct (expand cfg) eqn:Hexp; [discriminate|].
    injection Hcls as <-. simpl in Hget.
    destruct (current_sample _) as [cs|]; simpl in Hget; [|discriminate].
    destruct (getitem cs (VInt 1)) as [labels|]; simpl in Hget; [|discriminate].
    unfold image_labels_parse_label in Hget. rewrite Hexp in Hget.
    destruct (if is_str labels then _ else _) as [raw|]; simpl in Hget;
      [|discriminate].
    injection Hget as <- _. eapply Hdoc. reflexivity.
Qed.

End NoneAndClasses.

(** ** The parsers of FiftyOne samples *)

Section StoreNative.
Context {runtime : Runtime} {eta : Eta}.
Import Unlabeled.
Local Open Scope list_scope.

(** X18. The metadata of a FiftyOne sample: a parser with the capability
    returns the metadata that the sample holds, and consults the metadata
    builder only when the sample holds [None] and [compute_metadata] is set,
    in which case it returns what the builder makes of [filepath]; it never
    changes the parser.  A parser without the capability raises the same
    [ValueError] in every state. *)
Theorem metadata_computed_on_demand :
  (forall (p : parser) (fields : list (string * pyval)) (m : pyval)
          (build : pyval -> result pyval),
      has_image_metadata p = true ->
      _current_sample p = VSample fields ->
      dict_lookup "metadata" fields = Some m ->
      (is_none m = false \/ computes_metadata p = false ->
       @get_image_metadata (with_metadata_builder build eta) p = (Ok m, p))
      /\ (is_none m = true -> computes_metadata p = true ->
          forall path, dict_lookup "filepath" fields = Some path ->
            @get_image_metadata (with_metadata_builder build eta) p
            = (build path, p)))
  /\ (forall p : parser,
        has_image_metadata p = false ->
        get_image_metadata p = (Raise (ValueError NoImageMetadata), p)).
Proof.
  split.
  - intros p fields m build Hcap Hcur Hm.
    destruct p as [[|cm|fd cm]|]; try discriminate; simpl in Hcur; subst;
      simpl; rewrite Hm; simpl; (split;
        [ intros [Hnone| ->]; [rewrite Hnone|rewrite andb_false_r]; reflexivity
        | intros Hnone ->; rewrite Hnone; simpl; intros path ->; reflexivity ]).
  - intros p Hcap. destruct p as [[| |]|]; try discriminate; reflexivity.
Qed.

Lemma dict_set_fresh (k : string) (v : pyval) (d : list (string * pyval)) :
  k ∉ map fst d -> dict_set k v d = d ++ [(k, v)].
Proof.
  induction d as [|[k' v'] d IH]; simpl; intros Hk; [reflexivity|].
  rewrite not_elem_of_cons in Hk. destruct Hk as [Hne Hk].
  destruct (String.eqb_spec k k') as [->|_]; [contradiction|].
  rewrite (IH Hk). reflexivity.
Qed.

(** The entries that [get_label] gathers from the fields of a sample. *)
Lemma gather_all (p : parser) (fields : list (string * pyval))
    (d : list (string * string)) (acc : list (string * pyval)) :
  _current_sample p = VSample fields ->
  NoDup (map snd d) ->
  (forall t, t ∈ map snd d -> t ∉ map fst acc) ->
  (forall k, k ∈ map fst d -> is_Some (dict_lookup k fields)) ->
  gather p d acc
  = Ok (acc ++ map (fun kt => (snd kt, default VNone (dict_lookup (fst kt) fields))) d).
Proof.
  intros Hcur. revert acc.
  induction d as [|[k t] d IH]; intros acc Hnodup Hfresh Hall; simpl.
  - rewrite app_nil_r. reflexivity.
  - unfold current_sample. rewrite Hcur. simpl.
    destruct (Hall k) as [v Hv]; [left|]. rewrite Hv. simpl.
    apply NoDup_cons in Hnodup as [Ht Hnodup].
    rewrite dict_set_fresh by (apply Hfresh; left).
    rewrite IH; [rewrite <- app_assoc; reflexivity|exact Hnodup| |].
    + intros t' Ht'. rewrite map_app, elem_of_app. simpl.
      rewrite list_elem_of_singleton. intros [Hacc| ->].
      * apply (Hfresh t'); [right; exact Ht'|exact Hacc].
      * contradiction.
    + intros k' Hk'. apply Hall. right. exact Hk'.
Qed.

Lemma gather_missing (p : parser) (fields : list (string * pyval))
    (d : list (string * string)) (acc : list (string * pyval)) (k : string) :
  _current_sample p = VSample fields ->
  k ∈ map fst d ->
  dict_lookup k fields = None ->
  gather p d acc = Raise KeyError.
Proof.
  intros Hcur Hk Hmiss. revert acc.
  induction d as [|[k' t] d IH]; intros acc; [inversion Hk|]. simpl.
  unfold current_sample. rewrite Hcur. simpl.
  destruct (dict_lookup k' fields) as [v|] eqn:Hv; simpl; [|reflexivity].
  apply IH. simpl in Hk. apply elem_of_cons in Hk as [->|Hk]; [|exact Hk].
  rewrite Hmiss in Hv. discriminate.
Qed.

(** X19. The labels of a FiftyOne sample: with a field name the parser
    returns the value of that field; with a dict of field names to keys
    (the keys distinct) it returns a dict that has, for every entry, the
    value of the field under the key, in the order of the entries; and a
    field that the sample lacks makes it raise [KeyError]. *)
Theorem labels_gathered_from_fields :
  forall (fields : list (string * pyval)) (cm : bool),
    (forall f : string,
        get_label (Plain (FiftyOneLabeledImageSampleParser (FieldName f) cm)
                     (VSample fields))
        = (match dict_lookup f fields with
           | Some v => Ok v
           | None => Raise KeyError
           end,
           Plain (FiftyOneLabeledImageSampleParser (FieldName f) cm)
             (VSample fields)))
    /\ (forall d : list (string * string),
          NoDup (map snd d) ->
          (forall k, k ∈ map fst d -> is_Some (dict_lookup k fields)) ->
          exists l,
            get_label (Plain (FiftyOneLabeledImageSampleParser (FieldDict d) cm)
                         (VSample fields))
            = (Ok (VDict l),
               Plain (FiftyOneLabeledImageSampleParser (FieldDict d) cm)
                 (VSample fields))
            /\ map fst l = map snd d
            /\ forall k t, (k, t) ∈ d -> dict_lookup t l = dict_lookup k fields)
    /\ (forall (d : list (string * string)) (k : string),
          k ∈ map fst d ->
          dict_lookup k fields = None ->
          fst (get_label
                 (Plain (FiftyOneLabeledImageSampleParser (FieldDict d) cm)
                    (VSample fields)))
          = Raise KeyError).
Proof.
  intros fields cm. split; [|split].
  - intros f. simpl. destruct (dict_lookup f fields); reflexivity.
  - intros d Hnodup Hall.
    exists (map (fun kt => (snd kt, default VNone (dict_lookup (fst kt) fields))) d).
    split; [|split].
    + simpl. rewrite (gather_all _ fields d []); try assumption; try reflexivity.
      intros t _ Ht. inversion Ht.
    + rewrite map_map. reflexivity.
    + clear cm. induction d as [|[k0 t0] d IH]; intros k t Hin;
        [inversion Hin|].
      apply NoDup_cons in Hnodup as [Ht0 Hnodup]. simpl.
      apply elem_of_cons in Hin as [[= -> ->]|Hin].
      * rewrite String.eqb_refl.
        destruct (Hall k0) as [v ->]; [left|]. reflexivity.
      * destruct (String.eqb_spec t t0) as [->|_].
        -- exfalso. apply Ht0. apply list_elem_of_fmap. exists (k, t0). auto.
        -- apply IH; [exact Hnodup| |exact Hin].
           intros k' Hk'. apply Hall. right. exact Hk'.
  - intros d k Hk Hmiss. simpl.
    rewrite (gather_missing _ fields d [] k); try assumption; reflexivity.
Qed.

End StoreNative.

(** ** Detections and class ids *)

Section Detections.
Context {runtime : Runtime} {eta : Eta}.
Local Open Scope list_scope.

Lemma for_each_fails {A B} (f : A -> result B) (l : list A) (x : A) (e : exn) :
  x ∈ l -> f x = Raise e -> exists e', for_each f l = Raise e'.
Proof.
  intros Hx Hf. induction l as [|y l IH]; [inversion Hx|]. simpl.
  destruct (f y) as [b|e'] eqn:Hy; simpl; [|eauto].
  apply elem_of_cons in Hx as [->|Hx]; [rewrite Hf in Hy; discriminate|].
  destruct (IH Hx) as [e' ->]. simpl. eauto.
Qed.

(** X20. One detection per object, or none at all: the detection parser
    turns a list of objects into [Detections] with one detection for each
    object, in order; the empty list gives [Detections] without detections,
    which is not the [None] of an unlabeled record; and if one object fails
    to parse, the whole label raises. *)
Theorem one_detection_per_object :
  forall (cfg : detection_config) (objs : list pyval) (img : pyval),
    (forall label,
        detection_parse_label cfg (VList objs) img = Ok label ->
        exists dets,
          label = fol.Detections dets
          /\ length dets = length objs
          /\ Forall2 (fun obj det => _parse_detection cfg obj img = Ok det)
               objs dets)
    /\ (forall obj e,
          obj ∈ objs ->
          _parse_detection cfg obj img = Raise e ->
          exists e', detection_parse_label cfg (VList objs) img = Raise e')
    /\ detection_parse_label cfg (VList []) img = Ok (fol.Detections [])
    /\ detection_parse_label cfg VNone img = Ok VNone.
Proof.
  intros cfg objs img. split; [|split; [|split; reflexivity]].
  - intros label. unfold detection_parse_label. simpl.
    destruct (for_each _ objs) as [dets|] eqn:Hdets; simpl; [|discriminate].
    intros [= <-]. exists dets. apply for_each_Forall2 in Hdets.
    split; [reflexivity|]. split; [|exact Hdets].
    symmetry. exact (Forall2_length _ _ _ Hdets).
  - intros obj e Hobj Hfail. unfold detection_parse_label. simpl.
    destruct (for_each_fails (fun o => _parse_detection cfg o img) objs obj e
                Hobj Hfail) as [e' ->].
    simpl. eauto.
Qed.

(** X21. The keys of a detection: the label key and the bounding-box key
    are required, and a dict without one of them raises [KeyError]; a box
    that does not have four coordinates raises the unpacking [ValueError].
    The other keys are optional: in a detection that parses, the confidence
    is [None] when no confidence key is configured or the dict lacks it, and
    the attributes are [None] when no attributes key is configured and an
    empty dict when the dict lacks it. *)
Theorem detection_keys :
  forall (cfg : detection_config) (d : list (string * pyval)) (img : pyval),
    (dict_lookup (label_field cfg) d = None ->
     _parse_detection cfg (VDict d) img = Raise KeyError)
    /\ (is_Some (dict_lookup (label_field cfg) d) ->
        dict_lookup (bounding_box_field cfg) d = None ->
        _parse_detection cfg (VDict d) img = Raise KeyError)
    /\ (forall box l,
          is_Some (dict_lookup (label_field cfg) d) ->
          dict_lookup (bounding_box_field cfg) d = Some box ->
          iter box = Ok l ->
          length l <> 4%nat ->
          _parse_detection cfg (VDict d) img
          = Raise (ValueError UnpackMismatch))
    /\ (forall det,
          _parse_detection cfg (VDict d) img = Ok det ->
          getattr det "confidence"
          = Ok match given (confidence_field cfg) with
               | Some f => default VNone (dict_lookup f d)
               | None => VNone
               end
          /\ (given (attributes_field cfg) = None ->
              getattr det "attributes" = Ok VNone)
          /\ (forall f, given (attributes_field cfg) = Some f ->
                dict_lookup f d = None ->
                getattr det "attributes" = Ok (VDict []))
          /\ (forall f items, given (attributes_field cfg) = Some f ->
                dict_lookup f d = Some (VDict items) ->
                getattr det "attributes"
                = Ok (VDict (map (fun kv => (fst kv, _parse_attribute (snd kv)))
                               items)))).
Proof.
  intros cfg d img. unfold _parse_detection, _parse_bbox. simpl.
  split; [|split; [|split]].
  - intros ->. reflexivity.
  - intros [label ->] ->. reflexivity.
  - intros box l [label ->] -> Hiter Hlen. simpl. unfold unpack4.
    rewrite Hiter. simpl.
    destruct l as [|a [|b [|c [|e [|]]]]]; try reflexivity.
    simpl in Hlen. contradiction.
  - intros det.
    destruct (dict_lookup (label_field cfg) d) as [label|]; simpl;
      [|discriminate].
    destruct (dict_lookup (bounding_box_field cfg) d) as [box|]; simpl;
      [|discriminate].
    destruct (unpack4 box) as [[[[tlx tly] w] h]|]; simpl; [|discriminate].
    destruct (if negb (normalized cfg) then _ else _)
      as [[[[x y] w'] h']|]; simpl; [|discriminate].
    destruct (given (confidence_field cfg)) as [cf|]; simpl.
    + destruct (given (attributes_field cfg)) as [af|]; simpl.
      * destruct (dict_lookup af d) as [a|] eqn:Ha; simpl.
        -- destruct (dict_items a) as [items|] eqn:Hitems; simpl;
             [|destruct (dict_lookup cf d); discriminate].
           destruct (dict_lookup cf d); simpl; intros [= <-];
             (split; [reflexivity|]); (split; [discriminate|]);
             (split; [intros f [= <-]; rewrite Ha; discriminate|]);
             intros f items' [= <-]; rewrite Ha; intros [= ->];
             simpl in Hitems; injection Hitems as <-; reflexivity.
        -- destruct (dict_lookup cf d); simpl; intros [= <-];
             (split; [reflexivity|]); (split; [discriminate|]);
             (split; [intros f [= <-] _; reflexivity|]);
             intros f items' [= <-]; rewrite Ha; discriminate.
      * destruct (dict_lookup cf d); simpl; intros [= <-];
          (split; [reflexivity|]); (split; [reflexivity|]);
          split; intros; discriminate.
    + destruct (given (attributes_field cfg)) as [af|]; simpl.
      * destruct (dict_lookup af d) as [a|] eqn:Ha; simpl.
        -- destruct (dict_items a) as [items|] eqn:Hitems; simpl;
             [|discriminate].
           intros [= <-];
             (split; [reflexivity|]); (split; [discriminate|]);
             (split; [intros f [= <-]; rewrite Ha; discriminate|]);
             intros f items' [= <-]; rewrite Ha; intros [= ->];
             simpl in Hitems; injection Hitems as <-; reflexivity.
        -- intros [= <-];
             (split; [reflexivity|]); (split; [discriminate|]);
             (split; [intros f [= <-] _; reflexivity|]);
             intros f items' [= <-]; rewrite Ha; discriminate.
      * intros [= <-];
          (split; [reflexivity|]); (split; [reflexivity|]);
          split; intros; discriminate.
Qed.

(** X22. Class ids and label strings: against a list of classes, an id
    from 0 up to the length picks the class at that position, a negative id
    down to minus the length counts from the end, and any other id becomes
    its decimal string; a target that is a string is kept as the label, with
    a list of classes and without classes. *)
Theorem class_ids_index_the_classes :
  forall (classes : list pyval),
    (forall i : Z,
        0 <= i < Z.of_nat (length classes) ->
        exists c, classes !! Z.to_nat i = Some c
                  /\ classification_parse_label (VList classes) (VInt i)
                     = Ok (fol.Classification c))
    /\ (forall i : Z,
          - Z.of_nat (length classes) <= i < 0 ->
          exists c, classes !! Z.to_nat (Z.of_nat (length classes) + i) = Some c
                    /\ classification_parse_label (VList classes) (VInt i)
                       = Ok (fol.Classification c))
    /\ (forall i : Z,
          i < - Z.of_nat (length classes) \/ Z.of_nat (length classes) <= i ->
          classification_parse_label (VList classes) (VInt i)
          = Ok (fol.Classification (VStr (pretty i))))
    /\ (forall s : string,
          classification_parse_label (VList classes) (VStr s)
          = Ok (fol.Classification (VStr s))
          /\ classification_parse_label VNone (VStr s)
             = Ok (fol.Classification (VStr s))).
Proof.
  intros classes. unfold classification_parse_label. simpl.
  split; [|split; [|split]].
  - intros i Hi. unfold seq_index.
    destruct (Z.ltb_spec i 0) as [|_]; [lia|].
    destruct (Z.leb_spec 0 i) as [_|]; [|lia].
    destruct (Z.ltb_spec i (Z.of_nat (length classes))) as [_|]; [|lia].
    simpl. destruct (classes !! Z.to_nat i) as [c|] eqn:Hc; [eauto|].
    apply lookup_ge_None in Hc. lia.
  - intros i Hi. unfold seq_index.
    destruct (Z.ltb_spec i 0) as [_|]; [|lia].
    destruct (Z.leb_spec 0 (i + Z.of_nat (length classes))) as [_|]; [|lia].
    destruct (Z.ltb_spec (i + Z.of_nat (length classes))
                (Z.of_nat (length classes))) as [_|]; [|lia].
    simpl. rewrite (Z.add_comm (Z.of_nat (length classes)) i).
    destruct (classes !! Z.to_nat (i + Z.of_nat (length classes))) as [c|] eqn:Hc;
      [eauto|].
    apply lookup_ge_None in Hc. lia.
  - intros i Hi. unfold seq_index.
    destruct (Z.ltb_spec i 0) as [Hneg|Hpos].
    + destruct (Z.leb_spec 0 (i + Z.of_nat (length classes))) as [|_];
        [lia|reflexivity].
    + destruct (Z.leb_spec 0 i) as [_|]; [|lia].
      destruct (Z.ltb_spec i (Z.of_nat (length classes))) as [|_];
        [lia|reflexivity].
  - intros s. split; reflexivity.
Qed.

End Detections.

(** ** The further properties at concrete inputs *)

Lemma sample_class_consistent : Views.consistent sample_class.
Proof.
  split.
  - simpl. apply (bool_decide_unpack _). vm_compute. exact I.
  - intros n. simpl. split.
    + intros Hn. repeat (apply elem_of_cons in Hn as [->|Hn]);
        [vm_compute; eauto..|inversion Hn].
    + intros [fld Hf].
      destruct (decide (n = "filepath")) as [->|H1]; [set_solver|].
      destruct (decide (n = "tags")) as [->|H2]; [set_solver|].
      destruct (decide (n = "metadata")) as [->|H3]; [set_solver|].
      rewrite !lookup_insert_ne in Hf by congruence.
      rewrite lookup_empty in Hf. discriminate.
Qed.

Lemma field_added_once_witness :
  let cls' := Views.extended sample_class "weather"
                {| ftype := StringField; db_field := "weather";
                   document_type := None; null := false; field := None;
                   name := "weather" |} in
  add_field "weather" (FieldClass StringField) None None sample_class
  = (Ok (), cls')
  /\ add_field "weather" (FieldClass IntField) None None cls'
     = (Raise (ValueError FieldExists), cls')
  /\ _add_implied_field "weather" (VInt 3) cls' = (Raise AssertionError, cls').
Proof.
  intros cls'. split; [reflexivity|].
  apply (field_added_once sample_class cls' "weather" (FieldClass StringField)
           (FieldClass IntField) None None None None (VInt 3)).
  reflexivity.
Defined.

Lemma schema_only_grows_witness :
  let s := new_Sample (VStr "img.png") VNone VNone in
  let run := @set_field kind_mongo "weather" (VStr "sunny") true s in
  run = (fst run, snd run)
  /\ Views.consistent (klass s)
  /\ Views.consistent (klass (snd run))
  /\ _fields_ordered (klass (snd run))
     = ["filepath"; "tags"; "metadata"; "weather"].
Proof.
  intros s run.
  destruct (@schema_only_grows kind_mongo s (snd run) "weather" (VStr "sunny")
              true (fst run)) as (_ & _ & _ & Hconsistent);
    [vm_compute; reflexivity|].
  split; [vm_compute; reflexivity|].
  split; [exact sample_class_consistent|].
  split; [exact (Hconsistent sample_class_consistent)|].
  vm_compute. reflexivity.
Defined.

Lemma private_names_refused_witness :
  String.prefix "_" "_secret" = true
  /\ @set_field kind_mongo "_secret" (VInt 1) true Examples.flagged_sample
     = (Raise (ValueError InvalidFieldName), Examples.flagged_sample).
Proof.
  destruct (@private_names_refused kind_mongo) as [Hrefused _].
  split; [reflexivity|]. apply Hrefused. reflexivity.
Defined.

Lemma direct_attribute_blocks_field_witness :
  let s := new_Sample (VStr "img.png") VNone VNone in
  String.prefix "_" "foo" = false
  /\ hasattr s "foo" = Ok false
  /\ exists s1,
       @__setattr__ kind_mongo "foo" (VInt 1) s = (Ok (), s1)
       /\ @set_field kind_mongo "foo" (VInt 2) true s1
          = (Raise (ValueError ReservedWord), s1).
Proof.
  intros s.
  destruct (@direct_attribute_blocks_field kind_mongo s "foo" (VInt 1) (VInt 2)
              true eq_refl eq_refl) as (s1 & Hset & _ & _ & _ & _ & Hblocked).
  split; [reflexivity|]. split; [reflexivity|]. exists s1. auto.
Defined.

Lemma set_then_get_witness :
  let s := new_Sample (VStr "img.png") VNone VNone in
  let s' := snd (@set_field kind_mongo "weather" (VStr "sunny") true s) in
  @set_field kind_mongo "weather" (VStr "sunny") true s = (Ok (), s')
  /\ is_none (VStr "sunny") = false
  /\ __getitem__ s' "weather" = Ok (VStr "sunny").
Proof.
  intros s s'.
  assert (Hset : @set_field kind_mongo "weather" (VStr "sunny") true s
                 = (Ok (), s')) by (vm_compute; reflexivity).
  destruct (@set_then_get kind_mongo s s' "weather" (VStr "sunny") true Hset)
    as (Hget & _).
  split; [exact Hset|]. split; [reflexivity|]. apply Hget. reflexivity.
Defined.

Lemma uninferable_value_creates_nothing_witness :
  let s := new_Sample (VStr "img.png") VNone VNone in
  String.prefix "_" "score" = false
  /\ hasattr s "score" = Ok false
  /\ Spec.infer_kind (VFloat 0.5) = Raise TypeError
  /\ @set_field kind_mongo "score" (VFloat 0.5) true s = (Raise TypeError, s).
Proof.
  intros s.
  destruct (@uninferable_value_creates_nothing kind_mongo) as [Hnothing _].
  split; [reflexivity|]. split; [reflexivity|]. split; [reflexivity|].
  apply (Hnothing s "score" (VFloat 0.5) TypeError); reflexivity.
Defined.

Lemma autosave_once_witness :
  let s := MoreExamples.persisted_sample in
  let run := @set_field kind_mongo "filepath" (VStr "/data/b.png") false s in
  run = (Ok (), snd run)
  /\ saves (self (snd run)) = 1%nat
  /\ _in_db (self (snd run)) = true.
Proof.
  intros s run.
  assert (Hrun : run = (Ok (), snd run)) by (vm_compute; reflexivity).
  destruct (@autosave_once kind_mongo s (snd run) "filepath"
              (VStr "/data/b.png") false (Ok ()) Hrun) as [Hdb Hsaves].
  split; [exact Hrun|]. split; [exact Hsaves|exact Hdb].
Defined.


Lemma refused_value_leaves_field_witness :
  let s := new_Sample (VStr "img.png") VNone VNone in
  let value := VDict [("$set", VInt 1)] in
  String.prefix "_" "query" = false
  /\ hasattr s "query" = Ok false
  /\ Spec.infer_kind value = Ok Spec.Dict
  /\ exists fld,
       @set_field MoreExamples.strict_mongo "query" value true s
       = (Raise ValidationError,
          with_klass (Views.extended (klass s) "query" fld) s)
       /\ ftype fld = DictField.
Proof.
  intros s value.
  destruct (@refused_value_leaves_field MoreExamples.strict_mongo s "query"
              value Spec.Dict eq_refl eq_refl eq_refl)
    as (fld & Hset & Hty & _).
  { intros fld Hty. simpl. apply andb_false_r. }
  split; [reflexivity|]. split; [reflexivity|]. split; [reflexivity|].
  exists fld. auto.
Defined.

Lemma get_fields_lists_schema_witness :
  Views.consistent sample_class
  /\ exists l,
       @Views.get_fields MoreExamples.label_hierarchy sample_class None = Ok l
       /\ map fst l = ["filepath"; "tags"; "metadata"].
Proof.
  destruct (@get_fields_lists_schema MoreExamples.label_hierarchy sample_class
              sample_class_consistent) as (l & Hget & Hkeys & _).
  split; [exact sample_class_consistent|]. exists l. auto.
Defined.

Lemma get_fields_by_kind_witness :
  Views.consistent sample_class
  /\ exists l,
       @Views.get_fields MoreExamples.label_hierarchy sample_class
         (Some (FieldClass StringField)) = Ok l
       /\ forall n fld, (n, fld) ∈ l
            <-> _fields sample_class !! n = Some fld /\ ftype fld = StringField.
Proof.
  destruct (@get_fields_by_kind MoreExamples.label_hierarchy sample_class
              sample_class_consistent) as (Hfields & _).
  destruct (Hfields StringField) as (l & Hget & _ & Hmem).
  split; [exact sample_class_consistent|]. exists l. auto.
Defined.

Lemma filename_is_last_component_witness :
  let s := MoreExamples.persisted_sample in
  let path := ("/data" ++ String ODM.sep "img.png")%string in
  let run := @set_field kind_mongo "filepath" (VStr path) false s in
  ODM.has_slash "img.png" = false
  /\ run = (Ok (), snd run)
  /\ ODM.filename (snd run) = Ok (VStr "img.png").
Proof.
  intros s path run.
  assert (Hrun : run = (Ok (), snd run)) by (vm_compute; reflexivity).
  destruct (@filename_is_last_component kind_mongo) as (_ & Hjoin & _).
  split; [reflexivity|]. split; [exact Hrun|].
  apply (Hjoin s (snd run) "/data" "img.png" false); [reflexivity|exact Hrun].
Defined.

Lemma image_decoded_once_witness :
  let p := Tuple LabeledImageTupleSampleParser (VTuple [VStr "img.png"; VNone])
             VNone in
  let held := Tuple LabeledImageTupleSampleParser
                (VTuple [VStr "img.png"; VNone]) Examples.image_200x100 in
  let unreadable := fun _ : pyval => Raise (A := pyval) (External "unreadable") in
  @get_image Examples.bare_runtime Examples.one_image p
  = (Ok Examples.image_200x100, held)
  /\ is_none Examples.image_200x100 = false
  /\ @get_image Examples.bare_runtime
       (Unlabeled.with_image_reader unreadable unreadable Examples.one_image)
       held
     = (Ok Examples.image_200x100, held).
Proof.
  intros p held unreadable.
  destruct (@image_decoded_once Examples.bare_runtime Examples.one_image
              LabeledImageTupleSampleParser (VTuple [VStr "img.png"; VNone])
              VNone Examples.image_200x100 held unreadable unreadable
              eq_refl eq_refl) as (_ & Hagain & _).
  split; [reflexivity|]. split; [reflexivity|]. exact Hagain.
Defined.

Lemma ingestion_reads_no_image_witness :
  let p := new_tuple (ImageClassificationSampleParser VNone) in
  let record := VTuple [VStr "a.png"; VStr "cat"] in
  let unreadable := fun _ : pyval => Raise (A := pyval) (External "unreadable") in
  Unlabeled.reads_images p = false
  /\ @Ingest.parse_sample kind_mongo Examples.bare_runtime
       (Unlabeled.with_metadata_builder unreadable
          (Unlabeled.with_image_reader unreadable unreadable Examples.one_image))
       "ground_truth" VNone record p
     = @Ingest.parse_sample kind_mongo Examples.bare_runtime Examples.one_image
         "ground_truth" VNone record p.
Proof.
  intros p record unreadable.
  destruct (@ingestion_reads_no_image kind_mongo Examples.bare_runtime
              Examples.one_image p "ground_truth" VNone record unreadable
              unreadable unreadable eq_refl) as (Hsame & _).
  split; [reflexivity|exact Hsame].
Defined.

Lemma entry_points_split_parsers_witness :
  let p := new_plain ImageSampleParser in
  let samples := {| records := [VStr "a.png"]; has_len := true |} in
  is_unlabeled p = true
  /\ @add_labeled_images Examples.appending_store kind_mongo
       Examples.bare_runtime Examples.one_image samples "ground_truth" VNone
       true (Examples.empty_dataset, p)
     = (Raise (ValueError MustBeSubclass), (Examples.empty_dataset, p)).
Proof.
  intros p samples.
  destruct (@entry_points_split_parsers Examples.appending_store kind_mongo
              Examples.bare_runtime Examples.one_image p Examples.empty_dataset
              samples "ground_truth" VNone true) as [Hunlabeled _].
  split; [reflexivity|]. apply Hunlabeled. reflexivity.
Defined.

Lemma none_record_is_no_record_witness :
  let p := Tuple LabeledImageTupleSampleParser (VTuple [VStr "a.png"; VNone])
             Examples.image_200x100 in
  Protocol.reads_current_sample Protocol.GetImage p = true
  /\ @Protocol.call Examples.bare_runtime Examples.one_image Protocol.GetImage
       (with_sample VNone p)
     = (Raise (ValueError NoCurrentSample), clear_sample p).
Proof.
  intros p.
  destruct (@none_record_is_no_record Examples.bare_runtime Examples.one_image p)
    as [_ Hfails].
  split; [reflexivity|]. apply Hfails. reflexivity.
Defined.

Lemma label_cls_is_class_of_labels_witness :
  let c := ImageClassificationSampleParser VNone in
  let record := VTuple [VStr "a.png"; VStr "cat"] in
  c <> LabeledImageTupleSampleParser
  /\ label_cls (Tuple c record VNone) = Ok (Some Classification)
  /\ @get_label Examples.bare_runtime Examples.one_image (Tuple c record VNone)
     = (Ok (fol.Classification (VStr "cat")), Tuple c record VNone)
  /\ (fol.Classification (VStr "cat") = VNone
      \/ ((exists fields,
              fol.Classification (VStr "cat") = VDoc Classification fields)
          /\ forall fld, ftype fld = EmbeddedDocumentField ->
                         document_type fld = Some Classification ->
                         kind_validate fld (fol.Classification (VStr "cat"))
                         = true)).
Proof.
  intros c record.
  assert (Hc : c <> LabeledImageTupleSampleParser) by discriminate.
  split; [exact Hc|]. split; [reflexivity|]. split; [reflexivity|].
  apply (@label_cls_is_class_of_labels Examples.bare_runtime Examples.one_image
           c record VNone (fol.Classification (VStr "cat"))
           (Tuple c record VNone) Classification Hc); reflexivity.
Defined.

Lemma metadata_computed_on_demand_witness :
  let fields := [("filepath", VStr "a.png"); ("metadata", VNone)] in
  let p := Plain (FiftyOneUnlabeledImageSampleParser false) (VSample fields) in
  let build := fun _ : pyval => Ok (VDoc ImageMetadata []) in
  has_image_metadata p = true
  /\ _current_sample p = VSample fields
  /\ dict_lookup "metadata" fields = Some VNone
  /\ Unlabeled.computes_metadata p = false
  /\ @get_image_metadata
       (Unlabeled.with_metadata_builder build Examples.one_image) p
     = (Ok VNone, p).
Proof.
  intros fields p build.
  destruct (@metadata_computed_on_demand Examples.one_image) as [Hheld _].
  destruct (Hheld p fields VNone build eq_refl eq_refl eq_refl) as [Hkeep _].
  repeat (split; [reflexivity|]). apply Hkeep. right. reflexivity.
Defined.

Lemma labels_gathered_from_fields_witness :
  let fields := [("filepath", VStr "a.png");
                 ("ground_truth", fol.Classification (VStr "cat"))] in
  let d := [("ground_truth", "gt")] in
  NoDup (map snd d)
  /\ (forall k, k ∈ map fst d -> is_Some (dict_lookup k fields))
  /\ exists l,
       fst (@get_label Examples.bare_runtime Examples.one_image
              (Plain (FiftyOneLabeledImageSampleParser (FieldDict d) false)
                 (VSample fields)))
       = Ok (VDict l)
       /\ dict_lookup "gt" l = Some (fol.Classification (VStr "cat")).
Proof.
  intros fields d.
  assert (Hnodup : NoDup (map snd d))
    by (apply (bool_decide_unpack _); vm_compute; exact I).
  assert (Hall : forall k, k ∈ map fst d -> is_Some (dict_lookup k fields)).
  { intros k Hk. apply list_elem_of_singleton in Hk. subst k.
    vm_compute. eauto. }
  destruct (@labels_gathered_from_fields Examples.bare_runtime
              Examples.one_image fields false) as (_ & Hdict & _).
  destruct (Hdict d Hnodup Hall) as (l & Hget & _ & Hlookup).
  split; [exact Hnodup|]. split; [exact Hall|]. exists l. split.
  - rewrite Hget. reflexivity.
  - rewrite (Hlookup "ground_truth" "gt"); [reflexivity|]. left.
Defined.

Lemma one_detection_per_object_witness :
  let cfg := {| label_field := "label"; bounding_box_field := "bounding_box";
                confidence_field := None; attributes_field := None;
                classes := VNone; normalized := true |} in
  exists label dets,
    @detection_parse_label Examples.bare_runtime Examples.one_image cfg
      (VList [Examples.cat_box; Examples.cat_box]) VNone = Ok label
    /\ label = fol.Detections dets
    /\ length dets = 2%nat.
Proof.
  intros cfg.
  destruct (@one_detection_per_object Examples.bare_runtime Examples.one_image
              cfg [Examples.cat_box; Examples.cat_box] VNone) as [Hcount _].
  eexists. edestruct Hcount as (dets & Hlabel & Hlen & _);
    [vm_compute; reflexivity|].
  exists dets. split; [reflexivity|]. split; [exact Hlabel|exact Hlen].
Defined.

Lemma detection_keys_witness :
  dict_lookup (label_field Examples.absolute_detector)
    [("bounding_box", VList [VInt 1; VInt 2; VInt 3; VInt 4])] = None
  /\ @_parse_detection Examples.bare_runtime Examples.absolute_detector
       (VDict [("bounding_box", VList [VInt 1; VInt 2; VInt 3; VInt 4])])
       Examples.image_200x100
     = Raise KeyError.
Proof.
  destruct (@detection_keys Examples.bare_runtime Examples.absolute_detector
              [("bounding_box", VList [VInt 1; VInt 2; VInt 3; VInt 4])]
              Examples.image_200x100) as [Hlabel _].
  split; [reflexivity|]. apply Hlabel. reflexivity.
Defined.

Lemma class_ids_index_the_classes_witness :
  let classes := [VStr "cat"; VStr "dog"] in
  - Z.of_nat (length classes) <= -1 < 0
  /\ @classification_parse_label Examples.bare_runtime (VList classes) (VInt (-1))
     = Ok (fol.Classification (VStr "dog")).
Proof.
  intros classes.
  destruct (@class_ids_index_the_classes Examples.bare_runtime classes)
    as (_ & Hnegative & _).
  assert (Hrange : - Z.of_nat (length classes) <= -1 < 0) by (simpl; lia).
  destruct (Hnegative (-1) Hrange) as (c & Hc & Hlabel).
  split; [exact Hrange|]. rewrite Hlabel.
  vm_compute in Hc. injection Hc as <-. reflexivity.
Defined.

(** ** The models of an experimental dataset *)

Section Models.
Import Experimental.
Local Open Scope list_scope.

(** X23. The names of the registered models stay distinct: registering a
    new name appends it, registering a registered name raises and changes
    nothing, so that after any series of registrations [get_models] starts
    with the models it had, has no name twice, and has exactly the names it
    had and the names that were offered. *)
Theorem model_names_stay_distinct :
  forall (names models : list string),
    NoDup models ->
    NoDup (get_models (register_all names models))
    /\ models `prefix_of` get_models (register_all names models)
    /\ (forall n, n ∈ get_models (register_all names models)
                  <-> n ∈ models \/ n ∈ names)
    /\ (forall n models',
          register_model n models = Some models' ->
          models' = models ++ [n] /\ register_model n models' = None).
Proof.
  intros names. unfold get_models.
  induction names as [|name rest IH]; intros models Hnodup.
  - simpl. split; [exact Hnodup|]. split; [reflexivity|]. split.
    + intros n. split; [auto|]. intros [Hn|Hn]; [exact Hn|inversion Hn].
    + intros n models'. unfold register_model.
      destruct (bool_decide (n ∈ models)); [discriminate|]. intros [= <-].
      split; [reflexivity|]. rewrite bool_decide_eq_true_2; [reflexivity|].
      set_solver.
  - simpl. unfold register_model at 1 2 3.
    destruct (bool_decide (name ∈ models)) eqn:Hin; simpl.
    + apply bool_decide_eq_true in Hin.
      destruct (IH models Hnodup) as (Hnd & Hpre & Hmem & Hreg).
      split; [exact Hnd|]. split; [exact Hpre|]. split; [|exact Hreg].
      intros n. rewrite Hmem, elem_of_cons.
      split; [tauto|]. intros [Hn|[->|Hn]]; auto.
    + apply bool_decide_eq_false in Hin.
      assert (Hnodup' : NoDup (models ++ [name])).
      { apply NoDup_app. split; [exact Hnodup|].
        split; [|apply NoDup_singleton].
        intros k Hk Hk'. apply list_elem_of_singleton in Hk'. subst k.
        contradiction. }
      destruct (IH (models ++ [name]) Hnodup') as (Hnd & Hpre & Hmem & _).
      destruct (IH models Hnodup) as (_ & _ & _ & Hreg).
      split; [exact Hnd|]. split.
      * etransitivity; [|exact Hpre]. apply prefix_app_r. reflexivity.
      * split; [|exact Hreg].
        intros n. rewrite Hmem, elem_of_app, list_elem_of_singleton, elem_of_cons.
        tauto.
Qed.

End Models.

Lemma model_names_stay_distinct_witness :
  NoDup ["resnet"]
  /\ Experimental.get_models
       (Experimental.register_all ["vgg"; "resnet"; "vgg"] ["resnet"])
     = ["resnet"; "vgg"]
  /\ NoDup (Experimental.get_models
              (Experimental.register_all ["vgg"; "resnet"; "vgg"] ["resnet"])).
Proof.
  assert (Hnodup : NoDup ["resnet"])
    by (apply (bool_decide_unpack _); vm_compute; exact I).
  destruct (model_names_stay_distinct ["vgg"; "resnet"; "vgg"] ["resnet"]
              Hnodup) as (Hdistinct & _).
  split; [exact Hnodup|]. split; [vm_compute; reflexivity|exact Hdistinct].
Defined.
